(** * myapi: scoring endpoints (content moderation, sentiment, crypto risk)

    A shallow embedding of the scoring functions of
    [apis/content_moderation_api.py], [apis/sentiment_analysis_api.py] and
    [apis/crypto_analytics_api.py], and the properties of the
    extractor / aggregator / classifier pipeline they instantiate.

    Conventions of the embedding.
    - A Python [str] is a [string]: a list of code points below 256.  The
      character predicates below agree with CPython on that range.
    - A Python [float] is a binary64 [float] of the kernel, so sums, products
      and comparisons round exactly as the interpreter's do.  The integer [0]
      that initialises an accumulator is written [0%float]; Python compares
      and adds the two alike.
    - [re.search] and [re.findall] are given by a backtracking matcher over the
      fragment of the [re] syntax the pattern tables use.
    - A library call whose result the source does not determine - [w**2],
      which the C library computes, and [statistics.stdev] - is a parameter
      of the function that makes it, and may return a number or raise. *)

From Stdlib Require Import List Bool Arith NArith ZArith QArith Lia.
From Stdlib Require Import Permutation.
From Stdlib Require Import Ascii String DecimalString.
From Stdlib Require Import PrimFloat SpecFloat FloatOps FloatAxioms.
Import ListNotations.
Close Scope Q_scope.
Open Scope nat_scope.

Set Implicit Arguments.

(* Decimal literals such as 0.8 denote the nearest binary64 value, as in
   Python. *)
Set Warnings "-inexact-float".

(* ================================================================== *)
(** ** Python strings *)

Module PyStr.

Definition code (c : ascii) : N := N_of_ascii c.

Definition between (lo hi : N) (c : ascii) : bool :=
  (N.leb lo (code c) && N.leb (code c) hi)%bool.

(** [c.isupper()] for one character: [A-Z], and the Latin-1 capitals
    U+00C0..U+00D6 and U+00D8..U+00DE. *)
Definition isupper (c : ascii) : bool :=
  (between 65 90 c || between 192 214 c || between 216 222 c)%bool.

(** [c.lower()]: every upper-case character below 256 has its lower-case
    partner 32 code points above. *)
Definition lower_char (c : ascii) : ascii :=
  if isupper c then ascii_of_N (code c + 32) else c.

(** [c.upper()]: every lower-case character below 256 whose capital is
    below 256 too.  U+00B5 and U+00FF (capitals above 255) and U+00DF
    (capital "SS") are left as they are; no key of a table of this
    development contains their capitals, so lookups by upper-cased key are
    not affected.  Beyond U+00FF a [str] has characters, such as U+212A,
    whose lower-case form has another capital than they have: what is
    stated about [upper] after [lower] is stated for ASCII strings. *)
Definition upper_char (c : ascii) : ascii :=
  if (between 97 122 c || between 224 246 c || between 248 254 c)%bool
  then ascii_of_N (code c - 32) else c.

Fixpoint map_string (f : ascii -> ascii) (s : string) : string :=
  match s with
  | EmptyString => EmptyString
  | String c s' => String (f c) (map_string f s')
  end.

Definition lower : string -> string := map_string lower_char.
Definition upper : string -> string := map_string upper_char.

(** [\w], [\s] and [\d] of a [str] pattern (Unicode mode) below 256. *)
Definition is_word (c : ascii) : bool :=
  (between 48 57 c || between 65 90 c || between 95 95 c || between 97 122 c
   || between 170 170 c || between 178 179 c || between 181 181 c
   || between 185 186 c || between 188 190 c || between 192 214 c
   || between 216 246 c || between 248 255 c)%bool.

Definition is_space (c : ascii) : bool :=
  (between 9 13 c || between 28 32 c || between 133 133 c
   || between 160 160 c)%bool.

Definition is_digit (c : ascii) : bool := between 48 57 c.

End PyStr.

(* ================================================================== *)
(** ** The [re] module: patterns, [search], [findall] *)

Module Re.

(** The pattern syntax.  A group, capturing or not, only delimits its
    contents and is not represented. *)
Inductive regex : Type :=
| Eps                                   (* the empty pattern *)
| Chr (c : ascii)                       (* a literal character *)
| Cls (ranges : list (ascii * ascii))   (* [a-zX...]: a union of ranges *)
| Word                                  (* \w *)
| Space                                 (* \s *)
| Digit                                 (* \d *)
| Bound                                 (* \b *)
| Seq (r1 r2 : regex)                   (* r1r2 *)
| Alt (r1 r2 : regex)                   (* r1|r2 *)
| Star (r : regex).                     (* r*, greedy *)

Definition Plus (r : regex) : regex := Seq r (Star r).      (* r+ *)
Definition Opt (r : regex) : regex := Alt r Eps.            (* r? *)

Fixpoint lit (s : string) : regex :=
  match s with
  | EmptyString => Eps
  | String c EmptyString => Chr c
  | String c s' => Seq (Chr c) (lit s')
  end.

Fixpoint seqs (rs : list regex) : regex :=
  match rs with
  | [] => Eps
  | [r] => r
  | r :: rs' => Seq r (seqs rs')
  end.

Fixpoint alts (rs : list regex) : regex :=
  match rs with
  | [] => Eps
  | [r] => r
  | r :: rs' => Alt r (alts rs')
  end.

Definition in_ranges (rs : list (ascii * ascii)) (c : ascii) : bool :=
  existsb (fun r => PyStr.between (PyStr.code (fst r)) (PyStr.code (snd r)) c) rs.

Definition word_opt (c : option ascii) : bool :=
  match c with Some x => PyStr.is_word x | None => false end.

(** A position in the subject: the character just before it (if any) and
    the characters from it onwards. *)
Definition pos : Type := (option ascii * list ascii)%type.

Definition one_char (ok : ascii -> bool) (A : Type) (s : list ascii)
           (k : option ascii -> list ascii -> option A) : option A :=
  match s with
  | x :: s' => if ok x then k (Some x) s' else None
  | [] => None
  end.

(** The backtracking matcher, in continuation-passing style: alternatives
    are tried left to right and a star takes as many iterations as it can
    before giving one back.  An iteration of a star that consumes nothing
    is not taken. *)
Fixpoint run (A : Type) (r : regex) (prev : option ascii) (s : list ascii)
         (k : option ascii -> list ascii -> option A) {struct r} : option A :=
  match r with
  | Eps => k prev s
  | Chr c => one_char (Ascii.eqb c) s k
  | Cls rs => one_char (in_ranges rs) s k
  | Word => one_char PyStr.is_word s k
  | Space => one_char PyStr.is_space s k
  | Digit => one_char PyStr.is_digit s k
  | Bound =>
      if xorb (word_opt prev) (word_opt (hd_error s)) then k prev s else None
  | Seq r1 r2 => run r1 prev s (fun p' s' => run r2 p' s' k)
  | Alt r1 r2 =>
      match run r1 prev s k with
      | Some a => Some a
      | None => run r2 prev s k
      end
  | Star r1 =>
      (fix loop (n : nat) (p0 : option ascii) (s0 : list ascii) : option A :=
         match n with
         | O => k p0 s0
         | S n' =>
             match run r1 p0 s0
                       (fun p' s' =>
                          if Nat.ltb (List.length s') (List.length s0)
                          then loop n' p' s' else None) with
             | Some a => Some a
             | None => k p0 s0
             end
         end) (List.length s) prev s
  end.

(** One match attempt anchored at a position; [must_advance] refuses the
    empty match, as the scanner does right after an empty match. *)
Definition match_at (r : regex) (must_advance : bool)
           (prev : option ascii) (s : list ascii) : option pos :=
  run r prev s
      (fun p' s' =>
         if (must_advance && Nat.eqb (List.length s') (List.length s))%bool
         then None else Some (p', s')).

(** [re.search(r, s)] as a truth value. *)
Fixpoint search_from (r : regex) (prev : option ascii) (s : list ascii) : bool :=
  match match_at r false prev s with
  | Some _ => true
  | None =>
      match s with
      | [] => false
      | x :: s' => search_from r (Some x) s'
      end
  end.

Definition search (r : regex) (s : string) : bool :=
  search_from r None (list_ascii_of_string s).

(** [len(re.findall(r, s))]: the scanner walks the subject left to right;
    [skip] counts the characters still covered by the last match. *)
Fixpoint scan (r : regex) (prev : option ascii) (s : list ascii) (skip : nat)
  : nat :=
  match skip with
  | S skip' =>
      match s with
      | [] => 0
      | x :: s' => scan r (Some x) s' skip'
      end
  | O =>
      match match_at r false prev s with
      | None =>
          match s with
          | [] => 0
          | x :: s' => scan r (Some x) s' 0
          end
      | Some (_, s1) =>
          if Nat.eqb (List.length s1) (List.length s)
          then
            match match_at r true prev s with
            | None =>
                1 + match s with
                    | [] => 0
                    | x :: s' => scan r (Some x) s' 0
                    end
            | Some (_, s2) =>
                2 + match s with
                    | [] => 0
                    | x :: s' => scan r (Some x) s' (List.length s - List.length s2 - 1)
                    end
            end
          else
            1 + match s with
                | [] => 0
                | x :: s' => scan r (Some x) s' (List.length s - List.length s1 - 1)
                end
      end
  end.

Definition findall_len (r : regex) (s : string) : nat :=
  scan r None (list_ascii_of_string s) 0.

End Re.

(* ================================================================== *)
(** ** Python numbers *)

Module PyNum.

(** [float(n)] for a non-negative integer.  Each step is exact below 2^53,
    which every count and length of a string stays under. *)
Fixpoint float_of_pos (p : positive) : float :=
  match p with
  | xH => 1%float
  | xO p' => (2 * float_of_pos p')%float
  | xI p' => (2 * float_of_pos p' + 1)%float
  end.

Definition float_of_N (n : N) : float :=
  match n with
  | N0 => 0%float
  | Npos p => float_of_pos p
  end.

Definition float_of_nat (n : nat) : float := float_of_N (N.of_nat n).

(** [min(a, b)] of two numbers: the first argument is kept unless the
    second is strictly smaller. *)
Definition fmin (a b : float) : float := if (b <? a)%float then b else a.
Definition nmin (a b : nat) : nat := if Nat.ltb b a then b else a.

(** [a >= b] and [a > b] on floats. *)
Definition fge (a b : float) : bool := (b <=? a)%float.
Definition fgt (a b : float) : bool := (b <? a)%float.

End PyNum.

Import Re.
Open Scope string_scope.

(* ================================================================== *)
(** ** apis/content_moderation_api.py *)

Module Moderation.

Import PyNum.

Definition ws1 : regex := Plus Space.                      (* \s+ *)
Definition all_every : regex := alts [lit "all"; lit "every"].

(** r'\b(kill|murder|death)\s+(all|every)\s+(black|white|jew|muslim|gay|trans)\w*\b' *)
Definition hate_1 : regex :=
  seqs [Bound; alts [lit "kill"; lit "murder"; lit "death"]; ws1; all_every;
        ws1;
        alts [lit "black"; lit "white"; lit "jew"; lit "muslim"; lit "gay";
              lit "trans"];
        Star Word; Bound].

(** r'\b(hitler|nazi|supremacy|genocide)\b' *)
Definition hate_2 : regex :=
  seqs [Bound; alts [lit "hitler"; lit "nazi"; lit "supremacy"; lit "genocide"];
        Bound].

(** r'\b(rape|pedo|child\s+molest)\w*\b' *)
Definition hate_3 : regex :=
  seqs [Bound;
        alts [lit "rape"; lit "pedo"; seqs [lit "child"; ws1; lit "molest"]];
        Star Word; Bound].

(** r'\b(bomb|terrorist|attack)\s+(all|every)\s+\w+\b' *)
Definition hate_4 : regex :=
  seqs [Bound; alts [lit "bomb"; lit "terrorist"; lit "attack"]; ws1;
        all_every; ws1; Plus Word; Bound].

Definition HATE_SPEECH_PATTERNS : list regex := [hate_1; hate_2; hate_3; hate_4].

(** r'\b(buy\s+now|limited\s+time|act\s+fast|click\s+here)\b' *)
Definition spam_1 : regex :=
  seqs [Bound;
        alts [seqs [lit "buy"; ws1; lit "now"];
              seqs [lit "limited"; ws1; lit "time"];
              seqs [lit "act"; ws1; lit "fast"];
              seqs [lit "click"; ws1; lit "here"]];
        Bound].

(** r'\b(free\s+offer|money\s+back|guaranteed|no\s+risk)\b' *)
Definition spam_2 : regex :=
  seqs [Bound;
        alts [seqs [lit "free"; ws1; lit "offer"];
              seqs [lit "money"; ws1; lit "back"];
              lit "guaranteed";
              seqs [lit "no"; ws1; lit "risk"]];
        Bound].

(** r'\b(earn\s+\$\d+|\d+\%\s+off|discount|sale)\b' *)
Definition spam_3 : regex :=
  seqs [Bound;
        alts [seqs [lit "earn"; ws1; Chr "$"; Plus Digit];
              seqs [Plus Digit; Chr "%"; ws1; lit "off"];
              lit "discount";
              lit "sale"];
        Bound].

Definition hex_digit : regex :=
  Cls [("0", "9"); ("a", "f"); ("A", "F")]%char.

(** r'http[s]?://(?:[a-zA-Z]|[0-9]|[$-_@.&+]|[!*\\(\\),]|(?:%[0-9a-fA-F][0-9a-fA-F]))+' *)
Definition spam_4 : regex :=
  seqs [lit "http"; Opt (Cls [("s", "s")]%char); lit "://";
        Plus (alts [Cls [("a", "z"); ("A", "Z")]%char;
                    Cls [("0", "9")]%char;
                    Cls [("$", "_"); ("@", "@"); (".", "."); ("&", "&");
                         ("+", "+")]%char;
                    Cls [("!", "!"); ("*", "*"); ("\", "\"); ("(", "(");
                         (")", ")"); (",", ",")]%char;
                    seqs [Chr "%"; hex_digit; hex_digit]])].

Definition SPAM_PATTERNS : list regex := [spam_1; spam_2; spam_3; spam_4].

(** r'\b(fuck|shit|bitch|asshole|dick|pussy|cunt)\w*\b' *)
Definition profanity_1 : regex :=
  seqs [Bound;
        alts [lit "fuck"; lit "shit"; lit "bitch"; lit "asshole"; lit "dick";
              lit "pussy"; lit "cunt"];
        Star Word; Bound].

(** r'\b(motherfucker|fucker|bastard|whore|slut)\w*\b' *)
Definition profanity_2 : regex :=
  seqs [Bound;
        alts [lit "motherfucker"; lit "fucker"; lit "bastard"; lit "whore";
              lit "slut"];
        Star Word; Bound].

Definition PROFANITY_PATTERNS : list regex := [profanity_1; profanity_2].

Record Details : Type := {
  hate_speech_detected : bool;
  spam_detected : bool;
  profanity_count : nat;
  caps_ratio : float;
  text_length : nat;
  content_type : string;
  strictness_level : string
}.

Record Result : Type := {
  is_appropriate : bool;
  confidence_score : float;
  flagged_issues : list string;
  risk_level : string;
  suggested_action : string;
  moderation_details : Details
}.

(** The local variables of [analyze_content] that the checks update. *)
Record Acc : Type := {
  issues : list string;
  risk_score : float
}.

Definition flag (name : string) (w : float) (a : Acc) : Acc :=
  {| issues := (issues a ++ [name])%list; risk_score := (risk_score a + w)%float |}.

Definition mem (x : string) (l : list string) : bool :=
  existsb (String.eqb x) l.

(** Lines 48-52: one flag and 0.8 for every hate pattern found. *)
Definition check_hate_speech (text_lower : string) (a : Acc) : Acc :=
  fold_left (fun a pattern =>
               if search pattern text_lower then flag "hate_speech" 0.8 a else a)
            HATE_SPEECH_PATTERNS a.

(** Lines 55-58. *)
Definition count_spam (text_lower : string) : nat :=
  fold_left (fun n pattern => if search pattern text_lower then n + 1 else n)
            SPAM_PATTERNS 0.

(** Lines 60-62. *)
Definition check_spam (spam_count : nat) (a : Acc) : Acc :=
  if Nat.leb 2 spam_count then flag "spam" 0.6 a else a.

(** Lines 65-68. *)
Definition count_profanity (text_lower : string) : nat :=
  fold_left (fun n pattern => n + findall_len pattern text_lower)
            PROFANITY_PATTERNS 0.

(** Lines 70-72. *)
Definition check_profanity (profanity_count : nat) (a : Acc) : Acc :=
  if Nat.ltb 0 profanity_count
  then flag "profanity" (0.3 * float_of_nat (nmin profanity_count 3)) a
  else a.

(** Line 75: [sum(1 for c in text if c.isupper()) / len(text) if text else 0];
    the quotient of two integers below 2^53 is the rounded quotient of
    their floats. *)
Definition count_upper (text : string) : nat :=
  List.length (filter PyStr.isupper (list_ascii_of_string text)).

Definition compute_caps_ratio (text : string) : float :=
  if Nat.ltb 0 (String.length text)
  then (float_of_nat (count_upper text) / float_of_nat (String.length text))%float
  else 0%float.

(** Lines 76-78. *)
Definition check_caps (text : string) (caps : float) (a : Acc) : Acc :=
  if (fgt caps 0.7 && Nat.ltb 10 (String.length text))%bool
  then flag "excessive_caps" 0.2 a else a.

(** Lines 81-84. *)
Definition adjust (strictness : string) (risk : float) : float :=
  if String.eqb strictness "high" then (risk * 1.5)%float
  else if String.eqb strictness "low" then (risk * 0.7)%float
  else risk.

(** Lines 87-98: the label and the action of a risk score. *)
Definition classify (risk : float) : string * string :=
  if fge risk 0.8 then ("critical", "block")
  else if fge risk 0.6 then ("high", "flag_for_review")
  else if fge risk 0.4 then ("medium", "warn")
  else ("low", "allow").

(** Lines 44-84: the flags and the score just before classification. *)
Definition scored (text strictness : string) : Acc :=
  let text_lower := PyStr.lower text in
  let a := {| issues := []; risk_score := 0 |} in
  let a := check_hate_speech text_lower a in
  let a := check_spam (count_spam text_lower) a in
  let a := check_profanity (count_profanity text_lower) a in
  let a := check_caps text (compute_caps_ratio text) a in
  {| issues := issues a; risk_score := adjust strictness (risk_score a) |}.

Definition analyze_content (text content_type strictness : string) : Result :=
  let a := scored text strictness in
  let '(risk_level, suggested_action) := classify (risk_score a) in
  {| is_appropriate := (risk_score a <? 0.6)%float;
     confidence_score := fmin 1.0 (risk_score a);
     flagged_issues := issues a;
     risk_level := risk_level;
     suggested_action := suggested_action;
     moderation_details :=
       {| hate_speech_detected := mem "hate_speech" (issues a);
          spam_detected := mem "spam" (issues a);
          profanity_count := count_profanity (PyStr.lower text);
          caps_ratio := compute_caps_ratio text;
          text_length := String.length text;
          content_type := content_type;
          strictness_level := strictness |} |}.

(** One element of the [results] list of [batch_moderate_content]. *)
Record BatchItem : Type := {
  item_text : string;
  moderation_result : Result
}.

Record BatchResponse : Type := {
  results : list BatchItem;
  total_processed : nat
}.

(** Line 142: [text[:100] + "..." if len(text) > 100 else text]. *)
Definition preview (text : string) : string :=
  if Nat.ltb 100 (String.length text)
  then substring 0 100 text ++ "..." else text.

(** Lines 138-145 of [batch_moderate_content].  [analyze_content] raises
    nothing, so the handler of the surrounding [try] is never entered. *)
Definition batch_moderate_content (texts : list string)
           (content_type strictness : string) : BatchResponse :=
  {| results :=
       fold_left (fun results text =>
                    (results
                     ++ [ {| item_text := preview text;
                             moderation_result :=
                               analyze_content text content_type strictness |} ])%list)
                 texts [];
     total_processed := List.length texts |}.

End Moderation.

(* ================================================================== *)
(** ** apis/sentiment_analysis_api.py *)

Module Sentiment.

Import PyNum.

(** A Python [dict] with string keys, in insertion order. *)
Definition dict (V : Type) : Type := list (string * V).

Fixpoint dict_get (V : Type) (key : string) (d : dict V) : option V :=
  match d with
  | [] => None
  | (k, v) :: d' => if String.eqb key k then Some v else dict_get key d'
  end.

Fixpoint dict_set (V : Type) (key : string) (v : V) (d : dict V) : dict V :=
  match d with
  | [] => [(key, v)]
  | (k, v0) :: d' =>
      if String.eqb key k then (k, v) :: d' else (k, v0) :: dict_set key v d'
  end.

Definition EMOTION_KEYWORDS : dict (list string) :=
  [("joy", ["happy"; "excited"; "great"; "amazing"; "wonderful"; "fantastic";
            "love"; "enjoy"; "pleased"; "thrilled"]);
   ("sadness", ["sad"; "depressed"; "unhappy"; "miserable"; "disappointed";
                "heartbroken"; "grief"; "sorrow"; "melancholy"]);
   ("anger", ["angry"; "furious"; "mad"; "irritated"; "annoyed"; "frustrated";
              "outraged"; "livid"; "enraged"]);
   ("fear", ["scared"; "afraid"; "terrified"; "worried"; "anxious"; "nervous";
             "frightened"; "panicked"; "horrified"]);
   ("surprise", ["surprised"; "shocked"; "amazed"; "astonished"; "stunned";
                 "bewildered"; "startled"]);
   ("disgust", ["disgusted"; "revolted"; "sickened"; "appalled"; "repulsed";
                "nauseated"]);
   ("trust", ["trust"; "confident"; "reliable"; "faithful"; "loyal";
              "dependable"; "secure"]);
   ("anticipation", ["excited"; "eager"; "hopeful"; "optimistic";
                     "enthusiastic"; "looking forward"])].

(** Line 81: [r'\b' + re.escape(keyword) + r'\b']; the escaped keyword
    matches itself, character by character. *)
Definition keyword_pattern (keyword : string) : regex :=
  Seq Bound (Seq (lit keyword) Bound).

(** Lines 78-83: the matches of all keywords of one emotion. *)
Definition emotion_score (text_lower : string) (keywords : list string) : nat :=
  fold_left (fun score keyword =>
               score + findall_len (keyword_pattern keyword) text_lower)
            keywords 0.

(** Line 87. *)
Definition normalize (score : nat) : float :=
  fmin 1.0 (float_of_nat score / 3.0)%float.

(** Lines 78-87: one round of the loop of [extract_emotions]. *)
Definition emotion_step (text_lower : string) (emotions : dict float)
           (entry : string * list string) : dict float :=
  let score := emotion_score text_lower (snd entry) in
  if Nat.ltb 0 score
  then dict_set (fst entry) (normalize score) emotions else emotions.

(** The loop of [extract_emotions] over a keyword table. *)
Definition extract_from (table : dict (list string)) (text_lower : string)
  : dict float :=
  fold_left (emotion_step text_lower) table [].

Definition extract_emotions (text : string) : dict float :=
  extract_from EMOTION_KEYWORDS (PyStr.lower text).

(** [s.split(sep)] for a separator of one character: the pieces between
    the separators, empty ones included. *)
Fixpoint split_on (sep : ascii) (s : string) : list string :=
  match s with
  | EmptyString => [EmptyString]
  | String c s' =>
      if Ascii.eqb c sep then EmptyString :: split_on sep s'
      else match split_on sep s' with
           | piece :: pieces => String c piece :: pieces
           | [] => [String c EmptyString]
           end
  end.

(** [s.split()]: the maximal runs of characters that are not whitespace. *)
Fixpoint split_words (s : string) : list string :=
  match s with
  | EmptyString => []
  | String c s' =>
      if PyStr.is_space c then split_words s'
      else match s' with
           | EmptyString => [String c EmptyString]
           | String c' _ =>
               if PyStr.is_space c' then String c EmptyString :: split_words s'
               else match split_words s' with
                    | word :: words => String c word :: words
                    | [] => [String c EmptyString]
                    end
           end
  end.

Record Complexity : Type := {
  word_count : nat;
  sentence_count : nat;
  avg_sentence_length : float;
  avg_word_length : float;
  long_word_ratio : float;
  complexity_level : string
}.

(** Lines 133-153. *)
Definition analyze_text_complexity (text : string) : Complexity :=
  let sentences := split_on "." text in
  let words := split_words text in
  let avg_sentence_length :=
    if Nat.ltb 0 (List.length sentences)
    then (float_of_nat (List.length words)
          / float_of_nat (List.length sentences))%float
    else 0%float in
  let avg_word_length :=
    if Nat.ltb 0 (List.length words)
    then (float_of_nat (list_sum (map String.length words))
          / float_of_nat (List.length words))%float
    else 0%float in
  let long_words :=
    List.length (filter (fun word => Nat.ltb 6 (String.length word)) words) in
  let long_word_ratio :=
    if Nat.ltb 0 (List.length words)
    then (float_of_nat long_words / float_of_nat (List.length words))%float
    else 0%float in
  {| word_count := List.length words;
     sentence_count := List.length sentences;
     avg_sentence_length := avg_sentence_length;
     avg_word_length := avg_word_length;
     long_word_ratio := long_word_ratio;
     complexity_level :=
       if fgt long_word_ratio 0.2 then "high"
       else if fgt long_word_ratio 0.1 then "medium"
       else "low" |}.

(** One keyword of [extract_keywords]. *)
Record Keyword : Type := {
  kw_text : string;
  kw_type : string;
  importance : float
}.

(** Lines 99-105: the noun phrases longer than two characters.  The noun
    phrases and, below, the tagged words are what TextBlob finds in the
    text. *)
Definition phrase_keywords (noun_phrases : list string) : list Keyword :=
  fold_left (fun keywords phrase =>
               if Nat.ltb 2 (String.length phrase)
               then (keywords
                     ++ [ {| kw_text := phrase; kw_type := "noun_phrase";
                             importance :=
                               (float_of_nat (List.length (split_words phrase))
                                * 0.5)%float |} ])%list
               else keywords)
            noun_phrases [].

(** [tag.startswith(('NN', 'JJ', 'VB'))] *)
Definition content_tag (tag : string) : bool :=
  (prefix "NN" tag || prefix "JJ" tag || prefix "VB" tag)%bool.

(** Lines 110-116. *)
Definition tag_importance (tag : string) : float :=
  if prefix "NN" tag then 1.2%float
  else if prefix "JJ" tag then 1.0%float
  else if prefix "VB" tag then 0.8%float
  else 1.0%float.

(** Lines 108-122: the nouns, adjectives and verbs longer than two
    characters, added after [keywords]. *)
Definition word_keywords (keywords : list Keyword)
           (tags : list (string * string)) : list Keyword :=
  fold_left (fun keywords wt =>
               if (content_tag (snd wt) && Nat.ltb 2 (String.length (fst wt)))%bool
               then (keywords
                     ++ [ {| kw_text := fst wt; kw_type := snd wt;
                             importance := tag_importance (snd wt) |} ])%list
               else keywords)
            tags keywords.

(** Lines 125-129: one keyword per lower-cased text, a later one replacing
    an earlier one only if it is more important. *)
Definition unique_step (unique_keywords : dict Keyword) (kw : Keyword)
  : dict Keyword :=
  let text := PyStr.lower (kw_text kw) in
  match dict_get text unique_keywords with
  | None => dict_set text kw unique_keywords
  | Some old =>
      if fgt (importance kw) (importance old)
      then dict_set text kw unique_keywords else unique_keywords
  end.

(** [sorted(items, key=importance, reverse=True)]: the sort is stable, so
    an item goes behind the items that are at least as important. *)
Fixpoint insert_by_importance (kw : Keyword) (sorted : list Keyword)
  : list Keyword :=
  match sorted with
  | [] => [kw]
  | k :: sorted' =>
      if (importance k <? importance kw)%float then kw :: k :: sorted'
      else k :: insert_by_importance kw sorted'
  end.

Definition sorted_by_importance (items : list Keyword) : list Keyword :=
  fold_left (fun sorted kw => insert_by_importance kw sorted) items [].

(** Lines 91-131: [extract_keywords], from the noun phrases and the tagged
    words of the text. *)
Definition extract_keywords (noun_phrases : list string)
           (tags : list (string * string)) : list Keyword :=
  let keywords := word_keywords (phrase_keywords noun_phrases) tags in
  let unique_keywords := fold_left unique_step keywords [] in
  firstn 10 (sorted_by_importance (map snd unique_keywords)).

End Sentiment.

(* ================================================================== *)
(** ** apis/crypto_analytics_api.py *)

Module Crypto.

(** The arithmetic the portfolio code uses.  The code is written once over
    this interface; the interpreter runs it on binary64 floats. *)
Class Arith (F : Type) : Type := {
  lit : Q -> F;                      (* a decimal literal *)
  add : F -> F -> F;
  sub : F -> F -> F;
  mul : F -> F -> F;
  div : F -> F -> F;
  gt : F -> F -> bool                (* a > b *)
}.

Definition float_of_Z (z : Z) : float :=
  match z with
  | Z0 => 0%float
  | Zpos p => PyNum.float_of_pos p
  | Zneg p => (- PyNum.float_of_pos p)%float
  end.

#[export] Instance float_arith : Arith float := {|
  lit := fun q => (float_of_Z (Qnum q) / PyNum.float_of_pos (Qden q))%float;
  add := PrimFloat.add;
  sub := PrimFloat.sub;
  mul := PrimFloat.mul;
  div := PrimFloat.div;
  gt := PyNum.fgt
|}.

Section Portfolio.

Context {F : Type} {AF : Arith F}.

Record PortfolioAsset : Type := {
  symbol : string;
  quantity : F;
  purchase_price : F;
  purchase_date : string
}.

Definition MOCK_PRICES : list (string * Q) :=
  [("BTC", 45000); ("ETH", 3200); ("ADA", 120 # 100); ("DOT", 2550 # 100);
   ("LINK", 1875 # 100); ("UNI", 1230 # 100); ("SOL", 9500 # 100);
   ("MATIC", 185 # 100); ("AVAX", 6520 # 100); ("ATOM", 2890 # 100)]%Q.

(** [MOCK_PRICES.get(symbol.upper(), 0.0)] *)
Definition get_current_price (sym : string) : F :=
  match Sentiment.dict_get (PyStr.upper sym) MOCK_PRICES with
  | Some p => lit p
  | None => lit 0
  end.

(** One entry of [portfolio_data]. *)
Record AssetData : Type := {
  a_symbol : string;
  a_quantity : F;
  a_purchase_price : F;
  current_price : F;
  current_value : F;
  invested_value : F;
  profit_loss : F;
  profit_loss_percentage : F;
  weight : F
}.

Definition set_weight (w : F) (a : AssetData) : AssetData :=
  {| a_symbol := a_symbol a; a_quantity := a_quantity a;
     a_purchase_price := a_purchase_price a; current_price := current_price a;
     current_value := current_value a; invested_value := invested_value a;
     profit_loss := profit_loss a;
     profit_loss_percentage := profit_loss_percentage a;
     weight := w |}.

Record Metrics : Type := {
  portfolio_data : list AssetData;
  total_invested : F;
  total_current_value : F;
  total_profit_loss : F;
  total_profit_loss_percentage : F
}.

(** Lines 58-74: the entry of one asset, its weight still 0. *)
Definition asset_entry (asset : PortfolioAsset) : AssetData :=
  let current_price := get_current_price (symbol asset) in
  let current_value := mul (quantity asset) current_price in
  let invested_value := mul (quantity asset) (purchase_price asset) in
  let profit_loss := sub current_value invested_value in
  let profit_loss_pct :=
    if gt invested_value (lit 0)
    then mul (div profit_loss invested_value) (lit 100) else lit 0 in
  {| a_symbol := symbol asset; a_quantity := quantity asset;
     a_purchase_price := purchase_price asset;
     current_price := current_price; current_value := current_value;
     invested_value := invested_value; profit_loss := profit_loss;
     profit_loss_percentage := profit_loss_pct; weight := lit 0 |}.

(** Lines 53-78: the first loop, threading the list and the two totals. *)
Definition first_loop (assets : list PortfolioAsset)
  : list AssetData * F * F :=
  fold_left (fun (st : list AssetData * F * F) asset =>
               let '(data, invested, value) := st in
               let e := asset_entry asset in
               ((data ++ [e])%list, add invested (invested_value e),
                add value (current_value e)))
            assets ([], lit 0, lit 0).

Definition calculate_portfolio_metrics (assets : list PortfolioAsset) : Metrics :=
  let '(data, invested, value) := first_loop assets in
  (* lines 81-82 *)
  let data :=
    map (fun a =>
           set_weight (if gt value (lit 0)
                       then mul (div (current_value a) value) (lit 100)
                       else lit 0) a) data in
  {| portfolio_data := data;
     total_invested := invested;
     total_current_value := value;
     total_profit_loss := sub value invested;
     total_profit_loss_percentage :=
       if gt invested (lit 0)
       then mul (div (sub value invested) invested) (lit 100) else lit 0 |}.

(** What the code of this module may raise: the two exceptions it raises
    itself, and those of the library calls of [analyze_risk]. *)
Inductive Exn : Type :=
| KeyError (key : string)
| HTTPException (status : nat)
| OverflowError
| AttributeError
| StatisticsError.

(** [try: body except Exception: handler]: every exception above derives
    from [Exception], so the handler takes over from each. *)
Definition try_except (A : Type) (body : Exn + A) (handler : Exn -> Exn + A)
  : Exn + A :=
  match body with
  | inl e => handler e
  | inr a => inr a
  end.

(** The result of [analyze_risk]; the three keys every result has, and the
    keys only a non-empty portfolio gets. *)
Record RiskExtra : Type := {
  herfindahl_index : F;
  max_position_weight : F;
  volatility : F;
  asset_count : nat
}.

Record Risk : Type := {
  risk_level : string;
  diversification_score : F;
  concentration_risk : string;
  extra : option RiskExtra
}.

(** [max(a, b)]: the first argument unless the second is larger. *)
Definition max2 (a b : F) : F := if gt b a then b else a.

(** [max(weights) if weights else 0] *)
Definition max_of (weights : list F) : F :=
  match weights with
  | [] => lit 0
  | w :: ws => fold_left max2 ws w
  end.

(** The two library calls of [analyze_risk].  [w**2] is exact on the
    integer [0] that line 81 stores when the total value is not positive; on
    a float it goes through the power function of the C library, whose
    result need not be the rounded product [w*w], and raises
    [OverflowError] when the result overflows.  [statistics.stdev] raises on
    data it cannot convert, such as an infinity or a NaN.  Neither is part
    of the repository: both are parameters here, free to return a number or
    to raise. *)
Variable pow2 : F -> Exn + F.
Variable stdev : list F -> Exn + F.

(** Line 102, [sum(w**2 for w in weights)]: the squares are computed and
    added one by one, from the left and starting from 0, and the first
    exception ends the sum.  (From Python 3.12 on, [sum] also carries a
    correction term for floats; nothing stated below depends on the
    rounding of the sum.) *)
Definition sum_squares (weights : list F) : Exn + F :=
  fold_left (fun (acc : Exn + F) w =>
               match acc with
               | inl e => inl e
               | inr total =>
                   match pow2 w with
                   | inl e => inl e
                   | inr square => inr (add total square)
                   end
               end)
            weights (inr (lit 0)).

(** Lines 92-127. *)
Definition analyze_risk (data : list AssetData) : Exn + Risk :=
  match data with
  | [] => inr {| risk_level := "unknown"; diversification_score := lit 0;
                 concentration_risk := "high"; extra := None |}
  | _ =>
      let weights := map weight data in
      let max_weight := max_of weights in
      match sum_squares weights with
      | inl e => inl e
      | inr hhi =>
          let level :=
            if gt hhi (lit (25 # 100)) then "high"
            else if gt hhi (lit (15 # 100)) then "medium"
            else "low" in
          let profit_loss_pcts := map profit_loss_percentage data in
          match (if Nat.ltb 1 (List.length profit_loss_pcts)
                 then stdev profit_loss_pcts else inr (lit 0)) with
          | inl e => inl e
          | inr vol =>
              inr {| risk_level := level;
                     diversification_score :=
                       max2 (lit 0) (sub (lit 100) (mul hhi (lit 100)));
                     concentration_risk := level;
                     extra := Some {| herfindahl_index := hhi;
                                      max_position_weight := max_weight;
                                      volatility := vol;
                                      asset_count := List.length data |} |}
          end
      end
  end.

(** [f"{n}"] for a natural number. *)
Definition str_of_nat (n : nat) : string :=
  NilZero.string_of_uint (Nat.to_uint n).

Definition DIVERSIFY : string :=
  "Consider diversifying your portfolio to reduce concentration risk".
Definition ADD_ASSETS : string :=
  "Consider adding more assets to improve diversification".
Definition REBALANCE : string :=
  "Consider rebalancing to reduce exposure to your largest position".
Definition WELL_BALANCED : string :=
  "Your portfolio appears well-balanced. Continue monitoring market conditions.".

(** Line 143: [f"Review {len(underperformers)} underperforming assets"]. *)
Definition review_message (n : nat) : string :=
  "Review " ++ str_of_nat n ++ " underperforming assets".

(** Line 142: the assets with [profit_loss_percentage < -10]. *)
Definition underperformers (data : list AssetData) : list AssetData :=
  filter (fun asset => gt (lit (-10)) (profit_loss_percentage asset)) data.

(** Lines 129-152.  [risk_analysis["max_position_weight"]] raises
    [KeyError] on the record of the empty portfolio, which has no such
    key. *)
Definition generate_recommendations (data : list AssetData)
           (risk_analysis : Risk) : Exn + list string :=
  let recommendations : list string := [] in
  let recommendations :=
    if String.eqb (concentration_risk risk_analysis) "high"
    then (recommendations ++ [DIVERSIFY])%list else recommendations in
  let recommendations :=
    if Nat.ltb (List.length data) 5
    then (recommendations ++ [ADD_ASSETS])%list else recommendations in
  let recommendations :=
    if Nat.ltb 0 (List.length (underperformers data))
    then (recommendations
          ++ [review_message (List.length (underperformers data))])%list
    else recommendations in
  match extra risk_analysis with
  | None => inl (KeyError "max_position_weight")
  | Some x =>
      let recommendations :=
        if gt (max_position_weight x) (lit 50)
        then (recommendations ++ [REBALANCE])%list else recommendations in
      let recommendations :=
        match recommendations with
        | [] => [WELL_BALANCED]
        | _ => recommendations
        end in
      inr recommendations
  end.

(** [max(items, key=key)] and [min(items, key=key)]: the first item that
    no later item beats. *)
Definition max_by (A : Type) (key : A -> F) (items : list A) : option A :=
  match items with
  | [] => None
  | x :: rest =>
      Some (fold_left (fun best item =>
                         if gt (key item) (key best) then item else best)
                      rest x)
  end.

Definition min_by (A : Type) (key : A -> F) (items : list A) : option A :=
  match items with
  | [] => None
  | x :: rest =>
      Some (fold_left (fun best item =>
                         if gt (key best) (key item) then item else best)
                      rest x)
  end.

(** The fields of [PortfolioAnalytics]; [None] stands for the empty dict
    the handler stores when there is no asset. *)
Record PortfolioAnalytics : Type := {
  pa_total_value : F;
  pa_total_invested : F;
  pa_total_profit_loss : F;
  pa_profit_loss_percentage : F;
  best_performer : option AssetData;
  worst_performer : option AssetData;
  portfolio_metrics : Metrics;
  risk_analysis : Risk;
  recommendations : list string
}.

(** Lines 155-193: [analyze_portfolio], with the status of the
    [HTTPException] its handler raises.  An exception of [analyze_risk] or
    of [generate_recommendations] leaves the [try] block at once. *)
Definition analyze_portfolio (assets : list PortfolioAsset)
  : Exn + PortfolioAnalytics :=
  try_except
    (let metrics := calculate_portfolio_metrics assets in
     let data := portfolio_data metrics in
     let best := max_by profit_loss_percentage data in
     let worst := min_by profit_loss_percentage data in
     match analyze_risk data with
     | inl e => inl e
     | inr risk =>
         match generate_recommendations data risk with
         | inl e => inl e
         | inr recs =>
             inr {| pa_total_value := total_current_value metrics;
                    pa_total_invested := total_invested metrics;
                    pa_total_profit_loss := total_profit_loss metrics;
                    pa_profit_loss_percentage :=
                      total_profit_loss_percentage metrics;
                    best_performer := best;
                    worst_performer := worst;
                    portfolio_metrics := metrics;
                    risk_analysis := risk;
                    recommendations := recs |}
         end
     end)
    (fun _ => inl (HTTPException 500)).

End Portfolio.

Arguments PortfolioAsset F : clear implicits.
Arguments AssetData F : clear implicits.
Arguments Metrics F : clear implicits.
Arguments Risk F : clear implicits.
Arguments PortfolioAnalytics F : clear implicits.

(** The body of a successful answer of [get_crypto_price]. *)
Record PriceBody : Type := {
  price_symbol : string;
  price_usd : float;
  last_updated : string
}.

(** Lines 222-235: [get_crypto_price], as the interpreter runs it on
    floats; [now] is [datetime.now().isoformat()].  The 404 is raised
    inside the [try], whose handler catches every [Exception]. *)
Definition get_crypto_price (now : string) (sym : string) : Exn + PriceBody :=
  try_except
    (let price : float := get_current_price sym in
     if (price =? 0)%float then inl (HTTPException 404)
     else inr {| price_symbol := PyStr.upper sym;
                 price_usd := price;
                 last_updated := now |})
    (fun _ => inl (HTTPException 500)).

End Crypto.

(* ================================================================== *)
(** ** The vocabulary of the specification *)

Module Spec.

Import PyNum.

(** The number of non-overlapping matches of a group's rules in a text:
    every rule is scanned on its own and the matches are added up. *)
Definition total_matches (rules : list regex) (text : string) : nat :=
  list_sum (map (fun r => findall_len r text) rules).

(** The number of rules of a group that match somewhere in the text. *)
Definition rules_hit (rules : list regex) (text : string) : nat :=
  List.length (filter (fun r => Nat.ltb 0 (findall_len r text)) rules).

(** The three shapes the aggregator may give a group's count. *)
Inductive shape : Type :=
| Identity
| Capped (cap : nat)
| Presence.

Definition apply_shape (f : shape) (count : nat) : nat :=
  match f with
  | Identity => count
  | Capped cap => Nat.min count cap
  | Presence => if Nat.ltb 0 count then 1 else 0
  end.

Definition indicator (b : bool) : float := if b then 1%float else 0%float.

Definition multiplier (strictness : string) : float :=
  if String.eqb strictness "high" then 1.5%float
  else if String.eqb strictness "low" then 0.7%float
  else 1.0%float.

(** [Σ weight[g] * x[g]] over the four groups of the moderation module. *)
Definition weighted_sum (hate spam profanity caps : float) : float :=
  (0.8 * hate + 0.6 * spam + 0.3 * profanity + 0.2 * caps)%float.

(** The caps signal: more than 70% capitals in a text of more than ten
    characters. *)
Definition excessive_caps (text : string) : bool :=
  (fgt (Moderation.compute_caps_ratio text) 0.7
   && Nat.ltb 10 (String.length text))%bool.

(** A threshold band: a lower bound ([None] for the band that takes every
    remaining score), a label and an action. *)
Record Band : Type := {
  lower_bound : option float;
  label : string;
  action : string
}.

Inductive ClassifierError : Type := InvalidConfiguration.

Definition band_matches (score : float) (b : Band) : bool :=
  match lower_bound b with
  | Some l => fge score l
  | None => true
  end.

(** The classifier of the specification: the first band that matches, the
    bands being listed from the highest lower bound downward. *)
Fixpoint classify_bands (bands : list Band) (score : float)
  : ClassifierError + (string * string) :=
  match bands with
  | [] => inl InvalidConfiguration
  | b :: bands' =>
      if band_matches score b then inr (label b, action b)
      else classify_bands bands' score
  end.

(** [bound_le b1 b2]: the lower bound of [b1] is at most that of [b2]. *)
Definition bound_le (b1 b2 : Band) : bool :=
  match lower_bound b1, lower_bound b2 with
  | None, _ => true
  | Some _, None => false
  | Some l1, Some l2 => (l1 <=? l2)%float
  end.

Definition MODERATION_BANDS : list Band :=
  [ {| lower_bound := Some 0.8%float; label := "critical"; action := "block" |};
    {| lower_bound := Some 0.6%float; label := "high";
       action := "flag_for_review" |};
    {| lower_bound := Some 0.4%float; label := "medium"; action := "warn" |};
    {| lower_bound := None; label := "low"; action := "allow" |} ].

(** The number of flags of one name among the flagged issues. *)
Definition flag_count (name : string) (issues : list string) : nat :=
  List.length (filter (String.eqb name) issues).

End Spec.

Import PyNum Moderation Sentiment Spec.

(* ================================================================== *)
(** ** Auxiliary definitions *)

(** The accumulator before the first check. *)
Definition acc0 : Acc := {| issues := []; risk_score := 0 |}.

(** Every value the score can take: three multipliers, up to four hate
    rules, the spam flag, the capped profanity count and the caps flag. *)
Definition score_values : list float :=
  flat_map (fun m =>
  flat_map (fun h =>
  flat_map (fun sp =>
  flat_map (fun pc =>
  map (fun cp =>
         (m * weighted_sum (float_of_nat h) (indicator sp) (float_of_nat pc)
                           (indicator cp))%float)
      [false; true])
    (seq 0 4)) [false; true]) (seq 0 5)) [1.5; 0.7; 1.0]%float.

(** The score as the specification states it, for a choice of shapes for
    the hate-speech and the spam group: every count is the number of
    matches of the group, profanity is capped at 3 and the caps signal is
    a presence indicator. *)
Definition stated_score (f_hate f_spam : shape) (text strictness : string)
  : float :=
  let t := PyStr.lower text in
  (multiplier strictness
   * weighted_sum
       (float_of_nat (apply_shape f_hate (total_matches HATE_SPEECH_PATTERNS t)))
       (float_of_nat (apply_shape f_spam (total_matches SPAM_PATTERNS t)))
       (float_of_nat
          (apply_shape (Capped 3) (total_matches PROFANITY_PATTERNS t)))
       (indicator (excessive_caps text)))%float.

(** The weighted sum over the signals of the moderation module: the number
    of hate-speech rules that match, the spam signal (on from two matching
    rules), the profanity matches capped at 3 and the caps signal. *)
Definition signal_score (text strictness : string) : float :=
  let t := PyStr.lower text in
  (multiplier strictness
   * weighted_sum
       (float_of_nat (rules_hit HATE_SPEECH_PATTERNS t))
       (indicator (Nat.leb 2 (rules_hit SPAM_PATTERNS t)))
       (float_of_nat (Nat.min (total_matches PROFANITY_PATTERNS t) 3))
       (indicator (excessive_caps text)))%float.

(** [s.isascii()]: every character of the string is below U+0080. *)
Fixpoint is_ascii (s : string) : bool :=
  match s with
  | EmptyString => true
  | String c s' => N.ltb (PyStr.code c) 128 && is_ascii s'
  end.

(** The number of occurrences of a character in a string. *)
Fixpoint count_char (c : ascii) (s : string) : nat :=
  match s with
  | EmptyString => 0
  | String x s' => (if Ascii.eqb x c then 1 else 0) + count_char c s'
  end.

(** All characters of the string are whitespace. *)
Fixpoint all_space (s : string) : bool :=
  match s with
  | EmptyString => true
  | String c s' => (PyStr.is_space c && all_space s')%bool
  end.

(** No character of the string is whitespace. *)
Fixpoint no_space (s : string) : bool :=
  match s with
  | EmptyString => true
  | String c s' => (negb (PyStr.is_space c) && no_space s')%bool
  end.



(** The key under which [extract_keywords] files a keyword. *)
Definition kw_key (kw : Keyword) : string := PyStr.lower (kw_text kw).

(** What makes a keyword a candidate: a noun phrase, or a word tagged as
    noun, adjective or verb; either longer than two characters. *)
Definition candidate (noun_phrases : list string)
           (tags : list (string * string)) (kw : Keyword) : Prop :=
  2 < String.length (kw_text kw)
  /\ ((kw_type kw = "noun_phrase" /\ In (kw_text kw) noun_phrases)
      \/ (In (kw_text kw, kw_type kw) tags /\ content_tag (kw_type kw) = true)).

(** What the loop over the keywords keeps true of [unique_keywords]. *)
Definition filed (seen : list Keyword) (d : dict Keyword) : Prop :=
  NoDup (map fst d)
  /\ (forall e, In e d -> fst e = kw_key (snd e) /\ In (snd e) seen)
  /\ (forall kw, In kw seen -> In (kw_key kw) (map fst d)).

Definition in_unit_interval (x : float) : bool :=
  ((0 <=? x) && (x <=? 1))%float%bool.

Definition pair_eqb (p q : string * string) : bool :=
  (String.eqb (fst p) (fst q) && String.eqb (snd p) (snd q))%bool.

(* ================================================================== *)
(** ** Facts about the matcher *)

Section MatcherFacts.

Variable r : regex.

Lemma search_from_scan (s : list ascii) :
  forall prev, search_from r prev s = Nat.ltb 0 (scan r prev s 0).
Proof.
  induction s as [|x s IH]; intros prev; simpl.
  - destruct (match_at r false prev []) as [[p s1]|]; [|reflexivity].
    destruct (Nat.eqb (List.length s1) 0); [|reflexivity].
    destruct (match_at r true prev []) as [[p2 s2]|]; reflexivity.
  - destruct (match_at r false prev (x :: s)) as [[p s1]|]; [|apply IH].
    destruct (Nat.eqb (List.length s1) (S (List.length s))); [|reflexivity].
    destruct (match_at r true prev (x :: s)) as [[p2 s2]|]; reflexivity.
Qed.

(** [re.search] finds a match exactly when [re.findall] returns one. *)
Lemma search_findall (s : string) :
  search r s = Nat.ltb 0 (findall_len r s).
Proof. apply search_from_scan. Qed.

End MatcherFacts.

(* ================================================================== *)
(** ** Facts about the loops of [analyze_content] *)

Lemma fold_count_length (A : Type) (f : A -> bool) (l : list A) :
  forall n, fold_left (fun n x => if f x then n + 1 else n) l n
            = n + List.length (filter f l).
Proof.
  induction l as [|x l IH]; intros n; simpl.
  - lia.
  - rewrite IH. destruct (f x); simpl; lia.
Qed.

Lemma fold_add_sum (A : Type) (f : A -> nat) (l : list A) :
  forall n, fold_left (fun n x => n + f x) l n = n + list_sum (map f l).
Proof.
  induction l as [|x l IH]; intros n; simpl.
  - lia.
  - rewrite IH. lia.
Qed.

Lemma count_spam_rules_hit (t : string) :
  count_spam t = rules_hit SPAM_PATTERNS t.
Proof.
  unfold count_spam, rules_hit.
  rewrite (fold_count_length (fun p => search p t)), Nat.add_0_l.
  f_equal. apply filter_ext. intros p. apply search_findall.
Qed.

Lemma count_profanity_total (t : string) :
  count_profanity t = total_matches PROFANITY_PATTERNS t.
Proof.
  unfold count_profanity, total_matches.
  now rewrite (fold_add_sum (fun p => findall_len p t)).
Qed.

Lemma nmin_min (a b : nat) : nmin a b = Nat.min a b.
Proof. unfold nmin. destruct (Nat.ltb_spec b a); lia. Qed.

Lemma rules_hit_le (rules : list regex) (t : string) :
  rules_hit rules t <= List.length rules.
Proof. apply filter_length_le. Qed.

(** After the hate-speech loop there is one flag and one 0.8 per rule that
    matched; the repeated sum is the rounded product. *)
Lemma check_hate_speech_rules_hit (t : string) :
  check_hate_speech t acc0
  = {| issues := repeat "hate_speech" (rules_hit HATE_SPEECH_PATTERNS t);
       risk_score :=
         (0.8 * float_of_nat (rules_hit HATE_SPEECH_PATTERNS t))%float |}.
Proof.
  unfold check_hate_speech, rules_hit, HATE_SPEECH_PATTERNS.
  cbv [fold_left filter]. rewrite !search_findall.
  destruct (Nat.ltb 0 (findall_len hate_1 t)),
           (Nat.ltb 0 (findall_len hate_2 t)),
           (Nat.ltb 0 (findall_len hate_3 t)),
           (Nat.ltb 0 (findall_len hate_4 t)); vm_compute; reflexivity.
Qed.

(** The score before classification, as the weighted sum of the signals. *)
Lemma risk_score_formula (text strictness : string) :
  let t := PyStr.lower text in
  risk_score (scored text strictness)
  = (multiplier strictness
     * weighted_sum
         (float_of_nat (rules_hit HATE_SPEECH_PATTERNS t))
         (indicator (Nat.leb 2 (rules_hit SPAM_PATTERNS t)))
         (float_of_nat (Nat.min (total_matches PROFANITY_PATTERNS t) 3))
         (indicator (excessive_caps text)))%float.
Proof.
  intros t. unfold scored. fold t. fold acc0.
  rewrite check_hate_speech_rules_hit, count_spam_rules_hit,
    count_profanity_total.
  unfold check_spam, check_profanity, check_caps, adjust, multiplier.
  fold (excessive_caps text). rewrite nmin_min.
  pose proof (rules_hit_le HATE_SPEECH_PATTERNS t) as Hh. simpl in Hh.
  generalize dependent (rules_hit HATE_SPEECH_PATTERNS t). intros h Hh.
  assert (Hp : Nat.min (total_matches PROFANITY_PATTERNS t) 3 <= 3) by lia.
  assert (Hz : Nat.ltb 0 (total_matches PROFANITY_PATTERNS t)
               = Nat.ltb 0 (Nat.min (total_matches PROFANITY_PATTERNS t) 3)).
  { destruct (Nat.ltb_spec 0 (total_matches PROFANITY_PATTERNS t));
      symmetry; [apply Nat.ltb_lt | apply Nat.ltb_ge]; lia. }
  rewrite Hz. clear Hz.
  generalize dependent (Nat.min (total_matches PROFANITY_PATTERNS t) 3).
  intros pc Hp.
  destruct (Nat.leb 2 (rules_hit SPAM_PATTERNS t)), (excessive_caps text),
    (String.eqb strictness "high"), (String.eqb strictness "low");
    destruct h as [|[|[|[|[|h]]]]]; try lia;
    destruct pc as [|[|[|[|pc]]]]; try lia;
    vm_compute; reflexivity.
Qed.

Lemma multiplier_cases (strictness : string) :
  In (multiplier strictness) [1.5; 0.7; 1.0]%float.
Proof.
  unfold multiplier.
  destruct (String.eqb strictness "high"), (String.eqb strictness "low");
    simpl; auto.
Qed.

Lemma risk_score_in_values (text strictness : string) :
  In (risk_score (scored text strictness)) score_values.
Proof.
  rewrite risk_score_formula. cbv zeta. unfold score_values.
  set (t := PyStr.lower text).
  apply in_flat_map. exists (multiplier strictness).
  split; [apply multiplier_cases|].
  apply in_flat_map. exists (rules_hit HATE_SPEECH_PATTERNS t). split.
  { apply in_seq. pose proof (rules_hit_le HATE_SPEECH_PATTERNS t) as H.
    simpl in H. lia. }
  apply in_flat_map. exists (Nat.leb 2 (rules_hit SPAM_PATTERNS t)). split.
  { destruct (Nat.leb 2 (rules_hit SPAM_PATTERNS t)); simpl; auto. }
  apply in_flat_map.
  exists (Nat.min (total_matches PROFANITY_PATTERNS t) 3). split.
  { apply in_seq. lia. }
  apply in_map_iff. exists (excessive_caps text). split; [reflexivity|].
  destruct (excessive_caps text); simpl; auto.
Qed.

(** A boolean property checked on every value of [score_values] holds of
    the score of every text. *)
Lemma risk_score_all (f : float -> bool) :
  forallb f score_values = true ->
  forall text strictness, f (risk_score (scored text strictness)) = true.
Proof.
  intros H text strictness.
  exact (proj1 (forallb_forall f score_values) H _
               (risk_score_in_values text strictness)).
Qed.

(** The fields of the result, in terms of the score. *)
Lemma result_fields (text content_type strictness : string) :
  let r := analyze_content text content_type strictness in
  let score := risk_score (scored text strictness) in
  is_appropriate r = (score <? 0.6)%float
  /\ confidence_score r = fmin 1.0 score
  /\ (risk_level r, suggested_action r) = classify score
  /\ flagged_issues r = issues (scored text strictness)
  /\ profanity_count (moderation_details r)
     = count_profanity (PyStr.lower text)
  /\ spam_detected (moderation_details r)
     = mem "spam" (issues (scored text strictness)).
Proof.
  unfold analyze_content.
  destruct (classify (risk_score (scored text strictness))); simpl; auto 7.
Qed.

Lemma rules_hit_le_total (rules : list regex) (t : string) :
  rules_hit rules t <= total_matches rules t.
Proof.
  unfold rules_hit, total_matches.
  induction rules as [|r rules IH]; simpl; [lia|].
  destruct (Nat.ltb_spec 0 (findall_len r t)); simpl; lia.
Qed.

Lemma total_pos_rules_hit (rules : list regex) (t : string) :
  0 < total_matches rules t -> 0 < rules_hit rules t.
Proof.
  unfold rules_hit, total_matches.
  induction rules as [|r rules IH]; simpl; [lia|].
  destruct (Nat.ltb_spec 0 (findall_len r t)); simpl; lia.
Qed.

Lemma classify_bands_error (bands : list Band) (score : float) :
  classify_bands bands score = inl InvalidConfiguration
  <-> (forall b, In b bands -> band_matches score b = false).
Proof.
  induction bands as [|b bands IH]; simpl.
  - split; [intros _ b0 [] | reflexivity].
  - destruct (band_matches score b) eqn:Hb.
    + split; [discriminate|]. intros H.
      specialize (H b (or_introl eq_refl)). congruence.
    + rewrite IH. split.
      * intros H b0 [<-|Hin]; auto.
      * intros H b0 Hin. apply H. now right.
Qed.

Lemma pair_eqb_eq (p q : string * string) : pair_eqb p q = true -> p = q.
Proof.
  destruct p, q. unfold pair_eqb. simpl. intros H.
  apply andb_true_iff in H. destruct H as [H1 H2].
  apply String.eqb_eq in H1, H2. congruence.
Qed.

Lemma float_neq (f : float -> bool) (a b : float) : f a <> f b -> a <> b.
Proof. intros H E. apply H. now rewrite E. Qed.

(* ================================================================== *)
(** ** The moderation module: aggregated score *)

(** C1, as stated, fails: no choice among identity, capped and presence
    for the spam group gives the score of both "discount" (one spam rule,
    no contribution) and "buy now discount" (two spam rules, 0.6). *)
Lemma stated_score_refuted :
  ~ exists f_hate f_spam : shape,
      risk_score (scored "discount" "medium")
      = stated_score f_hate f_spam "discount" "medium"
      /\ risk_score (scored "buy now discount" "medium")
         = stated_score f_hate f_spam "buy now discount" "medium".
Proof.
  intros (f_hate & f_spam & H1 & H2).
  assert (Z : forall f, apply_shape f 0 = 0).
  { intros [|cap|]; reflexivity. }
  unfold stated_score in H1, H2.
  replace (total_matches HATE_SPEECH_PATTERNS (PyStr.lower "discount"))
    with 0 in H1 by (vm_compute; reflexivity).
  replace (total_matches HATE_SPEECH_PATTERNS (PyStr.lower "buy now discount"))
    with 0 in H2 by (vm_compute; reflexivity).
  rewrite Z in H1, H2.
  replace (total_matches SPAM_PATTERNS (PyStr.lower "discount"))
    with 1 in H1 by (vm_compute; reflexivity).
  replace (total_matches SPAM_PATTERNS (PyStr.lower "buy now discount"))
    with 2 in H2 by (vm_compute; reflexivity).
  destruct f_spam as [|[|cap]|].
  - revert H1. apply (float_neq (fun x => (x <? 0.5)%float)).
    vm_compute. discriminate.
  - revert H2. apply (float_neq (fun x => (x <? 0.5)%float)).
    vm_compute. discriminate.
  - revert H1. apply (float_neq (fun x => (x <? 0.5)%float)).
    vm_compute. discriminate.
  - revert H1. apply (float_neq (fun x => (x <? 0.5)%float)).
    vm_compute. discriminate.
Qed.

(** C1, amended: the score before classification is
    multiplier * (0.8 * h + 0.6 * s + 0.3 * p + 0.2 * c), where h is the
    number of hate-speech rules that match, s is 1 when at least two spam
    rules match and 0 otherwise, p is the number of profanity matches capped
    at 3, c is 1 for excessive capitals and 0 otherwise, and the multiplier
    is 1.5 for "high", 0.7 for "low" and 1.0 otherwise; the reported
    confidence score is that value capped at 1.0. *)
Theorem aggregated_score (text content_type strictness : string) :
  risk_score (scored text strictness) = signal_score text strictness
  /\ confidence_score (analyze_content text content_type strictness)
     = fmin 1.0 (signal_score text strictness).
Proof.
  pose proof (risk_score_formula text strictness) as H. cbv zeta in H.
  split; [exact H|].
  destruct (result_fields text content_type strictness) as (_ & Hc & _).
  rewrite Hc. unfold signal_score. now rewrite H.
Qed.

(* ================================================================== *)
(** ** The moderation module: classifier *)

(** C2: for every score the classifier returns the label and action of the
    band with the highest lower bound among the bands that match the score
    (>= 0.8 critical/block, >= 0.6 high/flag_for_review, >= 0.4 medium/warn,
    otherwise low/allow); scanning the band table gives the same pair, and
    the scan fails with InvalidConfiguration exactly when no band matches,
    which no score brings about. *)
Theorem classify_picks_tightest_band (score : float) :
  (exists b,
      In b MODERATION_BANDS
      /\ band_matches score b = true
      /\ classify score = (label b, action b)
      /\ forall b', In b' MODERATION_BANDS -> band_matches score b' = true ->
                    bound_le b' b = true)
  /\ classify_bands MODERATION_BANDS score = inr (classify score)
  /\ (classify_bands MODERATION_BANDS score = inl InvalidConfiguration
      <-> forall b, In b MODERATION_BANDS -> band_matches score b = false)
  /\ classify_bands MODERATION_BANDS score <> inl InvalidConfiguration.
Proof.
  split; [|split; [|split]].
  - unfold classify, MODERATION_BANDS.
    destruct (fge score 0.8) eqn:H8; [|destruct (fge score 0.6) eqn:H6;
      [|destruct (fge score 0.4) eqn:H4]].
    + eexists. split; [left; reflexivity|]. repeat split; auto.
      intros b' [<-|[<-|[<-|[<-|[]]]]] _; vm_compute; reflexivity.
    + eexists. split; [right; left; reflexivity|]. repeat split; auto.
      intros b' [<-|[<-|[<-|[<-|[]]]]] Hm;
        try (vm_compute; reflexivity).
      unfold band_matches in Hm; simpl in Hm. congruence.
    + eexists. split; [right; right; left; reflexivity|]. repeat split; auto.
      intros b' [<-|[<-|[<-|[<-|[]]]]] Hm;
        try (vm_compute; reflexivity);
        unfold band_matches in Hm; simpl in Hm; congruence.
    + eexists. split; [right; right; right; left; reflexivity|].
      repeat split; auto.
      intros b' [<-|[<-|[<-|[<-|[]]]]] Hm;
        try (vm_compute; reflexivity);
        unfold band_matches in Hm; simpl in Hm; congruence.
  - unfold classify, MODERATION_BANDS, classify_bands, band_matches. simpl.
    destruct (fge score 0.8), (fge score 0.6), (fge score 0.4); reflexivity.
  - apply classify_bands_error.
  - unfold MODERATION_BANDS, classify_bands, band_matches. simpl.
    destruct (fge score 0.8), (fge score 0.6), (fge score 0.4); discriminate.
Qed.

(** C3: the confidence score of every result lies in [0, 1]. *)
Theorem confidence_score_in_unit_interval (text content_type strictness : string) :
  let c := confidence_score (analyze_content text content_type strictness) in
  (0 <=? c)%float = true /\ (c <=? 1)%float = true.
Proof.
  cbv zeta.
  destruct (result_fields text content_type strictness) as (_ & Hc & _).
  rewrite Hc.
  apply andb_true_iff.
  apply (risk_score_all (fun r => in_unit_interval (fmin 1.0 r))).
  vm_compute. reflexivity.
Qed.

(* ================================================================== *)
(** ** The moderation module: the whole pipeline *)

(** C7: a text with exactly one hate-speech match and no spam match, no
    profanity match and a caps ratio of at most 0.7 gets, under strictness
    "medium", the score 0.8, the risk level "critical" and the action
    "block". *)
Theorem single_hate_match_is_critical (text content_type : string) :
  total_matches HATE_SPEECH_PATTERNS (PyStr.lower text) = 1 ->
  total_matches SPAM_PATTERNS (PyStr.lower text) = 0 ->
  total_matches PROFANITY_PATTERNS (PyStr.lower text) = 0 ->
  fgt (compute_caps_ratio text) 0.7 = false ->
  let r := analyze_content text content_type "medium" in
  confidence_score r = 0.8%float
  /\ risk_level r = "critical"
  /\ suggested_action r = "block".
Proof.
  intros Hh Hs Hp Hc. cbv zeta.
  destruct (result_fields text content_type "medium") as (_ & Hconf & Hcls & _).
  assert (Hscore : risk_score (scored text "medium") = 0.8%float).
  { rewrite risk_score_formula. cbv zeta.
    pose proof (rules_hit_le_total HATE_SPEECH_PATTERNS (PyStr.lower text)).
    pose proof (@total_pos_rules_hit HATE_SPEECH_PATTERNS (PyStr.lower text)).
    pose proof (rules_hit_le_total SPAM_PATTERNS (PyStr.lower text)).
    replace (rules_hit HATE_SPEECH_PATTERNS (PyStr.lower text)) with 1 by lia.
    replace (rules_hit SPAM_PATTERNS (PyStr.lower text)) with 0 by lia.
    rewrite Hp. unfold excessive_caps. rewrite Hc.
    vm_compute. reflexivity. }
  rewrite Hscore in Hconf, Hcls.
  rewrite Hconf. split; [vm_compute; reflexivity|].
  change (classify 0.8%float) with ("critical", "block") in Hcls.
  now inversion Hcls.
Qed.

Lemma single_hate_match_is_critical_witness :
  let r := analyze_content "The Nazi rally" "general" "medium" in
  confidence_score r = 0.8%float
  /\ risk_level r = "critical"
  /\ suggested_action r = "block".
Proof.
  apply (@single_hate_match_is_critical "The Nazi rally" "general");
    vm_compute; reflexivity.
Defined.

(** Below 0.6 the classifier answers low or medium, from 0.6 on high or
    critical. *)
Lemma appropriate_or_not (text strictness : string) :
  let r := risk_score (scored text strictness) in
  ((r <? 0.6)%float = true
   /\ (classify r = ("low", "allow") \/ classify r = ("medium", "warn")))
  \/ ((r <? 0.6)%float = false
      /\ (classify r = ("high", "flag_for_review")
          \/ classify r = ("critical", "block"))).
Proof.
  cbv zeta.
  pose proof (risk_score_all
                (fun r =>
                   if (r <? 0.6)%float
                   then orb (pair_eqb (classify r) ("low", "allow"))
                            (pair_eqb (classify r) ("medium", "warn"))
                   else orb (pair_eqb (classify r) ("high", "flag_for_review"))
                            (pair_eqb (classify r) ("critical", "block"))))
    as H.
  specialize (H ltac:(vm_compute; reflexivity) text strictness).
  cbv beta in H.
  destruct (risk_score (scored text strictness) <? 0.6)%float;
    [left | right]; (split; [reflexivity|]);
    apply orb_true_iff in H; destruct H as [H|H];
    apply pair_eqb_eq in H; auto.
Qed.

(** C9: the result is appropriate exactly when its risk level is "low" or
    "medium", and exactly when its suggested action is "allow" or "warn". *)
Theorem appropriate_iff_low_or_medium (text content_type strictness : string) :
  let r := analyze_content text content_type strictness in
  (is_appropriate r = true
   <-> risk_level r = "low" \/ risk_level r = "medium")
  /\ (is_appropriate r = true
      <-> suggested_action r = "allow" \/ suggested_action r = "warn").
Proof.
  cbv zeta.
  destruct (result_fields text content_type strictness) as (Ha & _ & Hcls & _).
  destruct (appropriate_or_not text strictness) as [[Hr [Hc|Hc]]|[Hr [Hc|Hc]]];
    rewrite Ha, Hr; rewrite Hc in Hcls; injection Hcls as H1 H2;
    rewrite H1, H2; split; split; intros X; auto; try discriminate;
    destruct X; discriminate.
Qed.

(** C10: the threshold bands assign the score and the score capped at 1.0
    the same label and action: the risk level and suggested action of the
    result are those of its confidence score. *)
Theorem clamping_keeps_band (text content_type strictness : string) :
  let r := analyze_content text content_type strictness in
  classify (risk_score (scored text strictness))
  = classify (fmin 1.0 (risk_score (scored text strictness)))
  /\ (risk_level r, suggested_action r) = classify (confidence_score r).
Proof.
  cbv zeta.
  destruct (result_fields text content_type strictness) as (_ & Hc & Hcls & _).
  assert (H : classify (risk_score (scored text strictness))
              = classify (fmin 1.0 (risk_score (scored text strictness)))).
  { apply pair_eqb_eq.
    apply (risk_score_all (fun r => pair_eqb (classify r) (classify (fmin 1.0 r)))).
    vm_compute. reflexivity. }
  split; [exact H|]. rewrite Hcls, Hc. exact H.
Qed.

(* ================================================================== *)
(** ** Signal counts *)

(** The flags raised before the strictness adjustment, in order. *)
Lemma issues_formula (text strictness : string) :
  let t := PyStr.lower text in
  issues (scored text strictness)
  = (repeat "hate_speech" (rules_hit HATE_SPEECH_PATTERNS t)
     ++ (if Nat.leb 2 (rules_hit SPAM_PATTERNS t) then ["spam"] else [])
     ++ (if Nat.ltb 0 (total_matches PROFANITY_PATTERNS t)
         then ["profanity"] else [])
     ++ (if excessive_caps text then ["excessive_caps"] else []))%list.
Proof.
  intros t. unfold scored. fold t. fold acc0.
  rewrite check_hate_speech_rules_hit, count_spam_rules_hit,
    count_profanity_total.
  unfold check_spam, check_profanity, check_caps. fold (excessive_caps text).
  destruct (Nat.leb 2 (rules_hit SPAM_PATTERNS t)),
    (Nat.ltb 0 (total_matches PROFANITY_PATTERNS t)), (excessive_caps text);
    simpl; rewrite ?app_nil_r, <- ?app_assoc; reflexivity.
Qed.

Lemma flag_count_hate (n : nat) (rest : list string) :
  flag_count "hate_speech" rest = 0 ->
  flag_count "hate_speech" (repeat "hate_speech" n ++ rest) = n.
Proof.
  intros H. unfold flag_count in *. rewrite filter_app, length_app, H.
  induction n as [|n IH]; simpl in *; lia.
Qed.

Lemma emotion_score_total (t : string) (keywords : list string) :
  emotion_score t keywords = total_matches (map keyword_pattern keywords) t.
Proof.
  unfold emotion_score, total_matches.
  rewrite (fold_add_sum (fun k => findall_len (keyword_pattern k) t)).
  now rewrite map_map.
Qed.

Section Dict.

Variable V : Type.

Lemma dict_get_set_same (k : string) (v : V) (d : dict V) :
  dict_get k (dict_set k v d) = Some v.
Proof.
  induction d as [|[k0 v0] d IH]; simpl.
  - now rewrite String.eqb_refl.
  - destruct (String.eqb k k0) eqn:E; simpl; rewrite E; auto.
Qed.

Lemma dict_get_set_other (k k' : string) (v : V) (d : dict V) :
  k <> k' -> dict_get k (dict_set k' v d) = dict_get k d.
Proof.
  intros Hne. induction d as [|[k0 v0] d IH]; simpl.
  - apply String.eqb_neq in Hne. now rewrite Hne.
  - destruct (String.eqb k' k0) eqn:E; simpl.
    + apply String.eqb_eq in E. subst k0.
      apply String.eqb_neq in Hne. now rewrite Hne.
    + now rewrite IH.
Qed.

End Dict.

Lemma emotion_fold_other (t : string) (table : dict (list string)) :
  forall acc e, ~ In e (map fst table) ->
                dict_get e (fold_left (emotion_step t) table acc)
                = dict_get e acc.
Proof.
  induction table as [|[k kws] table IH]; intros acc e Hn; simpl; [reflexivity|].
  simpl in Hn. rewrite IH by tauto.
  unfold emotion_step. simpl.
  destruct (Nat.ltb 0 (emotion_score t kws)); [|reflexivity].
  apply dict_get_set_other. intros ->. tauto.
Qed.

Lemma emotion_fold_in (t : string) (table : dict (list string)) :
  forall acc e kws,
    NoDup (map fst table) -> In (e, kws) table ->
    dict_get e (fold_left (emotion_step t) table acc)
    = if Nat.ltb 0 (emotion_score t kws)
      then Some (normalize (emotion_score t kws)) else dict_get e acc.
Proof.
  induction table as [|[k kws0] table IH]; intros acc e kws Hnd Hin;
    simpl in *; [contradiction|].
  inversion Hnd as [|? ? Hk Hnd']; subst.
  destruct Hin as [Heq|Hin].
  - injection Heq as -> ->.
    rewrite emotion_fold_other by assumption.
    unfold emotion_step. simpl.
    destruct (Nat.ltb 0 (emotion_score t kws)); [|reflexivity].
    apply dict_get_set_same.
  - rewrite (IH _ e kws Hnd' Hin).
    destruct (Nat.ltb 0 (emotion_score t kws)); [reflexivity|].
    unfold emotion_step. simpl.
    destruct (Nat.ltb 0 (emotion_score t kws0)); [|reflexivity].
    apply dict_get_set_other. intros ->.
    apply Hk. change k with (fst (k, kws)). now apply in_map.
Qed.

Lemma emotion_keys_nodup : NoDup (map fst EMOTION_KEYWORDS).
Proof.
  simpl. repeat constructor; simpl; intuition discriminate.
Qed.

(** The entry of an emotion: absent without a match, the normalised number
    of matches otherwise. *)
Lemma extract_emotions_get (text emotion : string) (keywords : list string) :
  In (emotion, keywords) EMOTION_KEYWORDS ->
  dict_get emotion (extract_emotions text)
  = if Nat.ltb 0 (emotion_score (PyStr.lower text) keywords)
    then Some (normalize (emotion_score (PyStr.lower text) keywords))
    else None.
Proof.
  intros Hin. unfold extract_emotions, extract_from.
  exact (@emotion_fold_in (PyStr.lower text) EMOTION_KEYWORDS [] emotion
                          keywords emotion_keys_nodup Hin).
Qed.

(** C4, as stated, fails for the hate-speech group: "nazi nazi" holds two
    matches of the second rule, and the extractor counts one. *)
Lemma hate_count_is_not_match_count :
  flag_count "hate_speech"
             (flagged_issues (analyze_content "nazi nazi" "general" "medium"))
  <> total_matches HATE_SPEECH_PATTERNS (PyStr.lower "nazi nazi").
Proof. vm_compute. discriminate. Qed.

(** C4, amended: the profanity count of the moderation module and the
    score of every emotion group of the sentiment module are the number of
    non-overlapping matches of the group's rules in the lower-cased text;
    the hate-speech and spam counts are the number of rules of the group
    that match at least once (spam being flagged from two rules on). *)
Theorem extractor_counts (text content_type strictness : string) :
  let t := PyStr.lower text in
  let r := analyze_content text content_type strictness in
  profanity_count (moderation_details r) = total_matches PROFANITY_PATTERNS t
  /\ flag_count "hate_speech" (flagged_issues r)
     = rules_hit HATE_SPEECH_PATTERNS t
  /\ count_spam t = rules_hit SPAM_PATTERNS t
  /\ spam_detected (moderation_details r)
     = Nat.leb 2 (rules_hit SPAM_PATTERNS t)
  /\ Forall (fun entry =>
               let n := total_matches (map keyword_pattern (snd entry)) t in
               emotion_score t (snd entry) = n
               /\ dict_get (fst entry) (extract_emotions text)
                  = if Nat.ltb 0 n then Some (normalize n) else None)
            EMOTION_KEYWORDS.
Proof.
  cbv zeta.
  destruct (result_fields text content_type strictness)
    as (_ & _ & _ & Hi & Hp & Hs).
  pose proof (issues_formula text strictness) as Hf. cbv zeta in Hf.
  split; [|split; [|split; [|split]]].
  - rewrite Hp. apply count_profanity_total.
  - rewrite Hi, Hf. apply flag_count_hate.
    destruct (Nat.leb 2 _), (Nat.ltb 0 _), (excessive_caps text); reflexivity.
  - apply count_spam_rules_hit.
  - rewrite Hs, Hf.
    pose proof (rules_hit_le HATE_SPEECH_PATTERNS (PyStr.lower text)) as Hh.
    simpl in Hh.
    destruct (rules_hit HATE_SPEECH_PATTERNS (PyStr.lower text))
      as [|[|[|[|[|h]]]]]; try lia;
      destruct (Nat.leb 2 _), (Nat.ltb 0 _), (excessive_caps text);
      reflexivity.
  - apply Forall_forall. intros [emotion keywords] Hin. simpl.
    rewrite <- emotion_score_total. split; [reflexivity|].
    now apply extract_emotions_get.
Qed.

(** C5, as stated, fails: no keyword of "joy" occurs in "the sky is blue",
    and the mapping has no entry for "joy" rather than an entry of 0. *)
Lemma no_match_no_entry :
  total_matches (map keyword_pattern
                     ["happy"; "excited"; "great"; "amazing"; "wonderful";
                      "fantastic"; "love"; "enjoy"; "pleased"; "thrilled"])
                (PyStr.lower "the sky is blue") = 0
  /\ In "joy" (map fst EMOTION_KEYWORDS)
  /\ dict_get "joy" (extract_emotions "the sky is blue") = None
  /\ dict_get "joy" (extract_emotions "the sky is blue") <> Some 0%float.
Proof.
  repeat split; try (vm_compute; reflexivity).
  - simpl; auto.
  - vm_compute. discriminate.
Qed.

(** C5, amended: an emotion none of whose keywords occurs in the text has
    no entry in the mapping [extract_emotions] returns (and no error is
    raised); an emotion has an entry exactly when a keyword occurs. *)
Theorem unmatched_emotion_is_absent (text emotion : string) (keywords : list string) :
  In (emotion, keywords) EMOTION_KEYWORDS ->
  (total_matches (map keyword_pattern keywords) (PyStr.lower text) = 0
   -> dict_get emotion (extract_emotions text) = None)
  /\ (dict_get emotion (extract_emotions text) = None
      -> total_matches (map keyword_pattern keywords) (PyStr.lower text) = 0).
Proof.
  intros Hin. rewrite (extract_emotions_get text Hin), emotion_score_total.
  destruct (Nat.ltb_spec 0 (total_matches (map keyword_pattern keywords)
                                          (PyStr.lower text))).
  - split; [lia | discriminate].
  - split; [reflexivity | lia].
Qed.

Lemma unmatched_emotion_is_absent_witness :
  (total_matches (map keyword_pattern
                      ["disgusted"; "revolted"; "sickened"; "appalled";
                       "repulsed"; "nauseated"])
                 (PyStr.lower "What a GREAT day") = 0
   -> dict_get "disgust" (extract_emotions "What a GREAT day") = None)
  /\ (dict_get "disgust" (extract_emotions "What a GREAT day") = None
      -> total_matches (map keyword_pattern
                            ["disgusted"; "revolted"; "sickened"; "appalled";
                             "repulsed"; "nauseated"])
                       (PyStr.lower "What a GREAT day") = 0).
Proof.
  apply (@unmatched_emotion_is_absent "What a GREAT day" "disgust").
  simpl. auto 10.
Defined.

(* ================================================================== *)
(** ** The crypto module: the first loop of [calculate_portfolio_metrics] *)

Import Crypto.

Section AnyArith.

Context {F : Type} {AF : Arith F}.

Lemma first_loop_from (assets : list (PortfolioAsset F)) :
  forall data invested value,
    fold_left (fun (st : list (AssetData F) * F * F) asset =>
                 let '(data, invested, value) := st in
                 let e := asset_entry asset in
                 ((data ++ [e])%list, add invested (invested_value e),
                  add value (current_value e)))
              assets (data, invested, value)
    = ((data ++ map asset_entry assets)%list,
       fold_left add (map (fun a => invested_value (asset_entry a)) assets)
                 invested,
       fold_left add (map (fun a => current_value (asset_entry a)) assets)
                 value).
Proof.
  induction assets as [|a assets IH]; intros data invested value; simpl.
  - now rewrite app_nil_r.
  - rewrite IH, <- app_assoc. reflexivity.
Qed.

(** The weights the second loop of [calculate_portfolio_metrics] stores. *)
Lemma portfolio_weights (assets : list (PortfolioAsset F)) :
  let m := calculate_portfolio_metrics assets in
  total_current_value m
  = fold_left add (map (fun a => current_value (asset_entry a)) assets) (lit 0)
  /\ map weight (portfolio_data m)
     = map (fun a =>
              if gt (total_current_value m) (lit 0)
              then mul (div (current_value (asset_entry a))
                            (total_current_value m)) (lit 100)
              else lit 0) assets.
Proof.
  unfold calculate_portfolio_metrics, first_loop.
  rewrite first_loop_from. simpl. split; [reflexivity|].
  now rewrite !map_map.
Qed.

End AnyArith.

(* ================================================================== *)
(** ** The moderation module: further properties of the verdict *)

Import Moderation.

(** The four signals of a text, and the score and the flags in terms of
    them, for every strictness at once. *)
Lemma signals_of (text : string) :
  exists (h : nat) (sp : bool) (pc : nat) (cp : bool),
    h <= 4 /\ pc <= 3
    /\ h = rules_hit HATE_SPEECH_PATTERNS (PyStr.lower text)
    /\ sp = Nat.leb 2 (rules_hit SPAM_PATTERNS (PyStr.lower text))
    /\ pc = Nat.min (total_matches PROFANITY_PATTERNS (PyStr.lower text)) 3
    /\ cp = excessive_caps text
    /\ (forall strictness,
           risk_score (scored text strictness)
           = (multiplier strictness
              * weighted_sum (float_of_nat h) (indicator sp) (float_of_nat pc)
                             (indicator cp))%float)
    /\ (forall strictness,
           issues (scored text strictness)
           = (repeat "hate_speech" h
              ++ (if sp then ["spam"] else [])
              ++ (if Nat.ltb 0 pc then ["profanity"] else [])
              ++ (if cp then ["excessive_caps"] else []))%list).
Proof.
  exists (rules_hit HATE_SPEECH_PATTERNS (PyStr.lower text)),
         (Nat.leb 2 (rules_hit SPAM_PATTERNS (PyStr.lower text))),
         (Nat.min (total_matches PROFANITY_PATTERNS (PyStr.lower text)) 3),
         (excessive_caps text).
  pose proof (rules_hit_le HATE_SPEECH_PATTERNS (PyStr.lower text)) as Hh.
  simpl in Hh.
  repeat split; try reflexivity; try lia.
  - intros strictness. apply risk_score_formula.
  - intros strictness. rewrite issues_formula. cbv zeta.
    replace (Nat.ltb 0 (Nat.min (total_matches PROFANITY_PATTERNS
                                              (PyStr.lower text)) 3))
      with (Nat.ltb 0 (total_matches PROFANITY_PATTERNS (PyStr.lower text)));
      [reflexivity|].
    destruct (Nat.ltb_spec 0 (total_matches PROFANITY_PATTERNS
                                            (PyStr.lower text)));
      symmetry; [apply Nat.ltb_lt | apply Nat.ltb_ge]; lia.
Qed.

(** The remaining fields of the result. *)
Lemma detail_fields (text ctype strictness : string) :
  let r := analyze_content text ctype strictness in
  hate_speech_detected (moderation_details r)
  = mem "hate_speech" (issues (scored text strictness))
  /\ caps_ratio (moderation_details r) = compute_caps_ratio text
  /\ text_length (moderation_details r) = String.length text
  /\ content_type (moderation_details r) = ctype
  /\ strictness_level (moderation_details r) = strictness.
Proof.
  unfold analyze_content.
  destruct (classify (risk_score (scored text strictness))); simpl; auto.
Qed.

(** Case analysis on the signals of a text. *)
Ltac signal_cases text :=
  let h := fresh "h" in let sp := fresh "sp" in
  let pc := fresh "pc" in let cp := fresh "cp" in
  let Hh := fresh "Hh" in let Hp := fresh "Hp" in
  let Eh := fresh "Eh" in let Es := fresh "Es" in
  let Ep := fresh "Ep" in let Ec := fresh "Ec" in
  let Hscore := fresh "Hscore" in let Hissues := fresh "Hissues" in
  destruct (signals_of text)
    as (h & sp & pc & cp & Hh & Hp & Eh & Es & Ep & Ec & Hscore & Hissues);
  destruct h as [|[|[|[|[|h]]]]]; try (exfalso; lia);
  destruct pc as [|[|[|[|pc]]]]; try (exfalso; lia);
  destruct sp, cp.

(** The flags come in a fixed order: "hate_speech" once for every hate rule
    that matches, then at most one each of "spam", "profanity" and
    "excessive_caps"; there are never more than seven. *)
Theorem flagged_issues_shape (text content_type strictness : string) :
  let t := PyStr.lower text in
  let r := analyze_content text content_type strictness in
  flagged_issues r
  = (repeat "hate_speech" (rules_hit HATE_SPEECH_PATTERNS t)
     ++ (if Nat.leb 2 (rules_hit SPAM_PATTERNS t) then ["spam"] else [])
     ++ (if Nat.ltb 0 (total_matches PROFANITY_PATTERNS t)
         then ["profanity"] else [])
     ++ (if excessive_caps text then ["excessive_caps"] else []))%list
  /\ rules_hit HATE_SPEECH_PATTERNS t <= 4
  /\ List.length (flagged_issues r) <= 7.
Proof.
  cbv zeta.
  destruct (result_fields text content_type strictness) as (_ & _ & _ & Hi & _).
  pose proof (issues_formula text strictness) as Hf. cbv zeta in Hf.
  pose proof (rules_hit_le HATE_SPEECH_PATTERNS (PyStr.lower text)) as Hh.
  simpl in Hh.
  rewrite Hi, Hf. repeat split; try assumption.
  rewrite !length_app, repeat_length.
  destruct (Nat.leb 2 _), (Nat.ltb 0 _), (excessive_caps text); simpl; lia.
Qed.

(** The detection flags of the details, in terms of the rules that match. *)
Lemma detected_flags (text ctype strictness : string) :
  let t := PyStr.lower text in
  let d := moderation_details (analyze_content text ctype strictness) in
  hate_speech_detected d = Nat.ltb 0 (rules_hit HATE_SPEECH_PATTERNS t)
  /\ spam_detected d = Nat.leb 2 (rules_hit SPAM_PATTERNS t)
  /\ profanity_count d = total_matches PROFANITY_PATTERNS t.
Proof.
  cbv zeta.
  destruct (result_fields text ctype strictness) as (_ & _ & _ & _ & Hp & Hs).
  destruct (detail_fields text ctype strictness) as (Hh & _).
  rewrite Hh, Hs, Hp, count_profanity_total.
  split; [|split; [|reflexivity]];
    signal_cases text; rewrite Hissues, <- ?Eh, <- ?Es; reflexivity.
Qed.

(** Strictness acts through three levels only - "high", "low" and anything
    else, which counts as "medium" - and a stricter level never lowers the
    confidence score nor turns a rejected text into an appropriate one. *)
Theorem strictness_levels (text ctype strictness : string) :
  let low := analyze_content text ctype "low" in
  let medium := analyze_content text ctype "medium" in
  let high := analyze_content text ctype "high" in
  let r := analyze_content text ctype strictness in
  (strictness <> "high" -> strictness <> "low" ->
   is_appropriate r = is_appropriate medium
   /\ confidence_score r = confidence_score medium
   /\ flagged_issues r = flagged_issues medium
   /\ risk_level r = risk_level medium
   /\ suggested_action r = suggested_action medium)
  /\ (confidence_score low <=? confidence_score medium)%float = true
  /\ (confidence_score medium <=? confidence_score high)%float = true
  /\ (is_appropriate high = true -> is_appropriate medium = true)
  /\ (is_appropriate medium = true -> is_appropriate low = true).
Proof.
  cbv zeta.
  destruct (result_fields text ctype "low") as (Al & Cl & _).
  destruct (result_fields text ctype "medium") as (Am & Cm & Km & Im & _).
  destruct (result_fields text ctype "high") as (Ah & Ch & _).
  destruct (result_fields text ctype strictness) as (Ar & Cr & Kr & Ir & _).
  split.
  - intros Hnh Hnl.
    apply String.eqb_neq in Hnh, Hnl.
    assert (E : scored text strictness = scored text "medium").
    { unfold scored, adjust. rewrite Hnh, Hnl. reflexivity. }
    rewrite Ar, Cr, Ir, Am, Cm, Im, E.
    rewrite E in Kr. rewrite <- Kr in Km. injection Km as K1 K2.
    repeat split; congruence.
  - rewrite Al, Cl, Am, Cm, Ah, Ch.
    signal_cases text; rewrite !Hscore;
      (repeat split; vm_compute; intros; congruence).
Qed.

(** Under any strictness but "low", a text in which a hate-speech rule
    matches is critical, blocked and not appropriate. *)
Theorem hate_speech_is_blocked (text ctype strictness : string) :
  hate_speech_detected
    (moderation_details (analyze_content text ctype strictness)) = true ->
  strictness <> "low" ->
  let r := analyze_content text ctype strictness in
  risk_level r = "critical"
  /\ suggested_action r = "block"
  /\ is_appropriate r = false.
Proof.
  intros Hd Hnl. cbv zeta.
  destruct (detected_flags text ctype strictness) as (Hh & _).
  cbv zeta in Hh. rewrite Hh in Hd. clear Hh.
  destruct (result_fields text ctype strictness) as (Ar & _ & Kr & _).
  rewrite Ar.
  assert (K : classify (risk_score (scored text strictness))
              = ("critical", "block")
              /\ (risk_score (scored text strictness) <? 0.6)%float = false).
  { apply String.eqb_neq in Hnl.
    signal_cases text; rewrite <- Eh in Hd; try discriminate Hd;
      rewrite Hscore; unfold multiplier; rewrite Hnl;
      destruct (String.eqb strictness "high"); vm_compute; auto. }
  destruct K as [K1 K2]. rewrite K1 in Kr. injection Kr as -> ->. auto.
Qed.

Lemma hate_speech_is_blocked_witness :
  let r := analyze_content "Long live the NAZI party" "forum" "high" in
  risk_level r = "critical"
  /\ suggested_action r = "block"
  /\ is_appropriate r = false.
Proof.
  apply (@hate_speech_is_blocked "Long live the NAZI party" "forum" "high").
  - vm_compute. reflexivity.
  - discriminate.
Defined.

(** Under strictness "low", a text in which exactly one hate-speech rule
    matches, fewer than two spam rules match, no profanity occurs and the
    capitals are not excessive is rated appropriate: its score is
    0.8 * 0.7 < 0.6, its level "medium" and its action "warn". *)
Theorem lone_hate_rule_passes_low_strictness (text ctype : string) :
  rules_hit HATE_SPEECH_PATTERNS (PyStr.lower text) = 1 ->
  rules_hit SPAM_PATTERNS (PyStr.lower text) < 2 ->
  total_matches PROFANITY_PATTERNS (PyStr.lower text) = 0 ->
  excessive_caps text = false ->
  let r := analyze_content text ctype "low" in
  is_appropriate r = true
  /\ risk_level r = "medium"
  /\ suggested_action r = "warn"
  /\ confidence_score r = (0.8 * 0.7)%float
  /\ flagged_issues r = ["hate_speech"].
Proof.
  intros Hh Hs Hp Hc. cbv zeta.
  destruct (result_fields text ctype "low") as (Ar & Cr & Kr & Ir & _).
  pose proof (risk_score_formula text "low") as Hscore.
  pose proof (issues_formula text "low") as Hissues.
  cbv zeta in Hscore, Hissues.
  assert (Hs' : Nat.leb 2 (rules_hit SPAM_PATTERNS (PyStr.lower text)) = false)
    by (apply Nat.leb_gt; exact Hs).
  rewrite Hh, Hs', Hp, Hc in Hscore, Hissues.
  rewrite Ar, Cr, Ir, Hscore, Hissues. rewrite Hscore in Kr.
  change (classify _) with ("medium", "warn") in Kr.
  injection Kr as -> ->.
  repeat split; vm_compute; reflexivity.
Qed.

Lemma lone_hate_rule_passes_low_strictness_witness :
  let r := analyze_content "The Nazi rally" "general" "low" in
  is_appropriate r = true
  /\ risk_level r = "medium"
  /\ suggested_action r = "warn"
  /\ confidence_score r = (0.8 * 0.7)%float
  /\ flagged_issues r = ["hate_speech"].
Proof.
  apply (@lone_hate_rule_passes_low_strictness "The Nazi rally" "general");
    vm_compute; first [reflexivity | lia].
Defined.

(** A result has no flag exactly when its confidence score is 0, and then
    it is appropriate, of low risk and allowed. *)
Theorem no_flag_iff_zero_score (text ctype strictness : string) :
  let r := analyze_content text ctype strictness in
  (flagged_issues r = [] <-> confidence_score r = 0%float)
  /\ (flagged_issues r = [] ->
      is_appropriate r = true /\ risk_level r = "low"
      /\ suggested_action r = "allow").
Proof.
  cbv zeta.
  destruct (result_fields text ctype strictness) as (Ar & Cr & Kr & Ir & _).
  rewrite Ar, Cr, Ir.
  assert (K : (issues (scored text strictness) = []
               /\ fmin 1.0 (risk_score (scored text strictness)) = 0%float
               /\ (risk_score (scored text strictness) <? 0.6)%float = true
               /\ classify (risk_score (scored text strictness))
                  = ("low", "allow"))
              \/ (issues (scored text strictness) <> []
                  /\ (fmin 1.0 (risk_score (scored text strictness)) <? 0.1)%float
                     = false)).
  { unfold multiplier in *.
    signal_cases text; rewrite Hissues, Hscore; unfold multiplier;
      destruct (String.eqb strictness "high"),
               (String.eqb strictness "low");
      first [ left; repeat split; vm_compute; reflexivity
            | right; split; [discriminate | vm_compute; reflexivity] ]. }
  destruct K as [(K1 & K2 & K3 & K4) | (K1 & K2)].
  - rewrite K4 in Kr. injection Kr as -> ->. rewrite K1, K2, K3.
    repeat split; auto.
  - split.
    + split; intros X; [contradiction|].
      rewrite X in K2. vm_compute in K2. discriminate.
    + intros X. contradiction.
Qed.

(** Three or more profanity matches make a text inappropriate under every
    strictness; under any strictness but "low" it is blocked. *)
Theorem three_profanities_are_rejected (text ctype strictness : string) :
  3 <= profanity_count
         (moderation_details (analyze_content text ctype strictness)) ->
  let r := analyze_content text ctype strictness in
  is_appropriate r = false
  /\ (strictness <> "low" ->
      risk_level r = "critical" /\ suggested_action r = "block").
Proof.
  intros Hp. cbv zeta.
  destruct (detected_flags text ctype strictness) as (_ & _ & Hc).
  cbv zeta in Hc. rewrite Hc in Hp. clear Hc.
  destruct (result_fields text ctype strictness) as (Ar & _ & Kr & _).
  rewrite Ar.
  assert (K : (risk_score (scored text strictness) <? 0.6)%float = false
              /\ (String.eqb strictness "low" = false ->
                  classify (risk_score (scored text strictness))
                  = ("critical", "block"))).
  { signal_cases text; try (exfalso; lia);
      rewrite Hscore; unfold multiplier;
      destruct (String.eqb strictness "high"),
               (String.eqb strictness "low");
      split; try (vm_compute; reflexivity);
      intros X; try discriminate X; vm_compute; reflexivity. }
  destruct K as [K1 K2]. split; [exact K1|].
  intros Hnl. apply String.eqb_neq in Hnl.
  rewrite (K2 Hnl) in Kr. injection Kr as -> ->. auto.
Qed.

Lemma three_profanities_are_rejected_witness :
  let r := analyze_content "shit, SHIT and more shit" "comments" "medium" in
  is_appropriate r = false
  /\ ("medium" <> "low" ->
      risk_level r = "critical" /\ suggested_action r = "block").
Proof.
  apply (@three_profanities_are_rejected "shit, SHIT and more shit"
                                         "comments" "medium").
  vm_compute. lia.
Defined.

(** A text of at most ten characters is never flagged for capitals,
    however many of them it has. *)
Theorem short_text_never_shouts (text ctype strictness : string) :
  String.length text <= 10 ->
  ~ In "excessive_caps"
       (flagged_issues (analyze_content text ctype strictness)).
Proof.
  intros Hlen.
  destruct (result_fields text ctype strictness) as (_ & _ & _ & Hi & _).
  rewrite Hi, issues_formula. cbv zeta.
  assert (Hc : excessive_caps text = false).
  { unfold excessive_caps.
    replace (Nat.ltb 10 (String.length text)) with false
      by (symmetry; apply Nat.ltb_ge; exact Hlen).
    apply andb_false_r. }
  rewrite Hc, app_nil_r. intros Hin.
  apply in_app_or in Hin. destruct Hin as [Hin|Hin].
  - apply repeat_spec in Hin. discriminate.
  - apply in_app_or in Hin.
    destruct Hin as [Hin|Hin];
      [destruct (Nat.leb 2 _) | destruct (Nat.ltb 0 _)];
      simpl in Hin; intuition discriminate.
Qed.

Lemma short_text_never_shouts_witness :
  ~ In "excessive_caps"
       (flagged_issues (analyze_content "STOP NOW!" "general" "high")).
Proof.
  apply (@short_text_never_shouts "STOP NOW!" "general" "high").
  vm_compute. lia.
Defined.

Lemma lower_char_idempotent (c : ascii) :
  PyStr.lower_char (PyStr.lower_char c) = PyStr.lower_char c.
Proof.
  destruct c as [[] [] [] [] [] [] [] []]; vm_compute; reflexivity.
Qed.

(** Lower-casing twice is lower-casing once. *)
Lemma lower_idempotent (s : string) :
  PyStr.lower (PyStr.lower s) = PyStr.lower s.
Proof.
  induction s as [|c s IH]; simpl; [reflexivity|].
  unfold PyStr.lower in *. simpl.
  now rewrite lower_char_idempotent, IH.
Qed.

(** Detection does not depend on the case of the letters: a text and its
    lower-cased form get the same hate-speech and spam verdicts and the
    same profanity count. *)
Theorem detection_ignores_case (text ctype strictness : string) :
  let d := moderation_details (analyze_content text ctype strictness) in
  let d' :=
    moderation_details (analyze_content (PyStr.lower text) ctype strictness) in
  hate_speech_detected d' = hate_speech_detected d
  /\ spam_detected d' = spam_detected d
  /\ profanity_count d' = profanity_count d.
Proof.
  cbv zeta.
  destruct (detected_flags text ctype strictness) as (H1 & H2 & H3).
  destruct (detected_flags (PyStr.lower text) ctype strictness)
    as (H1' & H2' & H3').
  cbv zeta in *. rewrite lower_idempotent in H1', H2', H3'.
  rewrite H1, H2, H3, H1', H2', H3'. auto.
Qed.

Lemma substring_prefix_length (n : nat) (s : string) :
  String.length (substring 0 n s) = Nat.min n (String.length s).
Proof.
  revert s. induction n as [|n IH]; intros [|c s]; simpl; auto.
Qed.

Lemma string_append_length (s1 s2 : string) :
  String.length (s1 ++ s2) = String.length s1 + String.length s2.
Proof. induction s1 as [|c s1 IH]; simpl; auto. Qed.

Lemma batch_results_map (ctype strictness : string) (texts : list string) :
  forall acc,
    fold_left (fun results text =>
                 (results
                  ++ [ {| item_text := preview text;
                          moderation_result :=
                            analyze_content text ctype strictness |} ])%list)
              texts acc
    = (acc
       ++ map (fun text =>
                 {| item_text := preview text;
                    moderation_result :=
                      analyze_content text ctype strictness |}) texts)%list.
Proof.
  induction texts as [|t texts IH]; intros acc; simpl.
  - now rewrite app_nil_r.
  - rewrite IH, <- app_assoc. reflexivity.
Qed.

(** [batch_moderate_content] answers one item per text, in order, each with
    the result of [analyze_content] on the whole text; the text shown is the
    text itself up to 100 characters and its first 100 characters followed
    by "..." beyond, so it never exceeds 103 characters. *)
Theorem batch_moderation_items (texts : list string) (ctype strictness : string) :
  let b := batch_moderate_content texts ctype strictness in
  total_processed b = List.length texts
  /\ List.length (results b) = List.length texts
  /\ map moderation_result (results b)
     = map (fun text => analyze_content text ctype strictness) texts
  /\ map item_text (results b) = map preview texts
  /\ Forall (fun item => String.length (item_text item) <= 103) (results b)
  /\ Forall (fun text =>
               (String.length text <= 100 -> preview text = text)
               /\ (100 < String.length text ->
                   preview text = substring 0 100 text ++ "..."
                   /\ String.length (preview text) = 103))
            texts.
Proof.
  cbv zeta. unfold batch_moderate_content. simpl.
  rewrite batch_results_map. simpl.
  assert (Hp : forall text, String.length (preview text) <= 103).
  { intros text. unfold preview.
    destruct (Nat.ltb_spec 100 (String.length text)).
    - rewrite string_append_length, substring_prefix_length.
      change (String.length "...") with 3. lia.
    - lia. }
  repeat split.
  - now rewrite length_map.
  - rewrite map_map. reflexivity.
  - rewrite map_map. reflexivity.
  - apply Forall_forall. intros item Hin.
    apply in_map_iff in Hin. destruct Hin as (text & <- & _). apply Hp.
  - apply Forall_forall. intros text _. unfold preview.
    destruct (Nat.ltb_spec 100 (String.length text)); split; intros; try lia.
    + split; [reflexivity|].
      rewrite string_append_length, substring_prefix_length.
      change (String.length "...") with 3. lia.
    + reflexivity.
Qed.

(* ================================================================== *)
(** ** The sentiment module: emotions and text complexity *)

Import Sentiment.




(** [extract_emotions] does not depend on the case of the letters. *)
Theorem emotions_ignore_case (text : string) :
  extract_emotions (PyStr.lower text) = extract_emotions text.
Proof.
  unfold extract_emotions. now rewrite lower_idempotent.
Qed.

Lemma split_on_length (sep : ascii) (s : string) :
  List.length (split_on sep s) = S (count_char sep s).
Proof.
  induction s as [|c s IH]; simpl; [reflexivity|].
  destruct (Ascii.eqb c sep); simpl.
  - now rewrite IH.
  - destruct (split_on sep s) as [|piece pieces]; simpl in *; [discriminate|].
    exact IH.
Qed.

(** The sentence count is one more than the number of full stops of the
    text: it is never 0 (the empty text counts one sentence), and a text
    that ends with a full stop counts an empty last sentence. *)
Theorem sentences_are_full_stops_plus_one (text : string) :
  sentence_count (analyze_text_complexity text) = S (count_char "." text)
  /\ 0 < sentence_count (analyze_text_complexity text)
  /\ sentence_count (analyze_text_complexity (text ++ "."))
     = S (sentence_count (analyze_text_complexity text)).
Proof.
  unfold analyze_text_complexity. simpl sentence_count.
  rewrite !split_on_length. repeat split; [lia|].
  f_equal. induction text as [|c text IH]; simpl; [reflexivity|].
  rewrite IH. lia.
Qed.

Lemma split_words_nil (s : string) :
  split_words s = [] <-> all_space s = true.
Proof.
  induction s as [|c s IH]; simpl; [tauto|].
  destruct (PyStr.is_space c); simpl; [exact IH|].
  split; [|discriminate].
  destruct s as [|c' s']; [discriminate|].
  destruct (PyStr.is_space c'); [discriminate|].
  destruct (split_words (String c' s')); discriminate.
Qed.

Lemma split_words_no_space (s : string) :
  Forall (fun word => word <> "" /\ no_space word = true) (split_words s).
Proof.
  induction s as [|c s IH]; [constructor|].
  cbn [split_words].
  destruct (PyStr.is_space c) eqn:Ec; [exact IH|].
  destruct s as [|c' s'].
  - constructor; [|constructor]. simpl. rewrite Ec. split; [discriminate|auto].
  - destruct (PyStr.is_space c') eqn:Ec'.
    + constructor; [|exact IH]. simpl. rewrite Ec. split; [discriminate|auto].
    + destruct (split_words (String c' s')) as [|word words].
      * constructor; [|constructor]. simpl. rewrite Ec.
        split; [discriminate|auto].
      * inversion IH as [|? ? [Hw1 Hw2] Hws]; subst.
        constructor; [|exact Hws]. simpl. rewrite Ec, Hw2.
        split; [discriminate|auto].
Qed.

(** The words of a text are non-empty and free of whitespace; a text has no
    word exactly when it is empty or all whitespace, and then the average
    word length and the long-word ratio are 0 (nothing is divided by zero)
    and the complexity is "low". *)
Theorem wordless_text_is_simple (text : string) :
  let c := analyze_text_complexity text in
  Forall (fun word => word <> "" /\ no_space word = true) (split_words text)
  /\ word_count c = List.length (split_words text)
  /\ (word_count c = 0 <-> all_space text = true)
  /\ (word_count c = 0 ->
      avg_word_length c = 0%float /\ long_word_ratio c = 0%float
      /\ complexity_level c = "low").
Proof.
  cbv zeta. split; [apply split_words_no_space|].
  split; [reflexivity|]. split.
  - unfold analyze_text_complexity. simpl word_count.
    rewrite <- split_words_nil.
    destruct (split_words text); simpl; split; congruence.
  - unfold analyze_text_complexity. simpl word_count. intros H.
    apply length_zero_iff_nil in H. rewrite H. simpl.
    repeat split; vm_compute; reflexivity.
Qed.

(* ================================================================== *)
(** ** The crypto module: prices *)

Import Crypto.

Lemma upper_lower_char (c : ascii) :
  PyStr.upper_char (PyStr.lower_char c) = PyStr.upper_char c.
Proof.
  destruct c as [[] [] [] [] [] [] [] []]; vm_compute; reflexivity.
Qed.

Lemma upper_char_idempotent (c : ascii) :
  PyStr.upper_char (PyStr.upper_char c) = PyStr.upper_char c.
Proof.
  destruct c as [[] [] [] [] [] [] [] []]; vm_compute; reflexivity.
Qed.

Lemma upper_lower_ascii (s : string) :
  is_ascii s = true -> PyStr.upper (PyStr.lower s) = PyStr.upper s.
Proof.
  induction s as [|c s IH]; simpl; [reflexivity|].
  intros H. apply andb_prop in H. destruct H as [_ H].
  unfold PyStr.upper, PyStr.lower in *. simpl.
  now rewrite upper_lower_char, (IH H).
Qed.

Lemma upper_idempotent (s : string) : PyStr.upper (PyStr.upper s) = PyStr.upper s.
Proof.
  induction s as [|c s IH]; simpl; [reflexivity|].
  unfold PyStr.upper in *. simpl.
  now rewrite upper_char_idempotent, IH.
Qed.

(** Every price of the table is positive, as a rational and as a float. *)
Lemma table_prices_positive (key : string) (q : Q) :
  dict_get key MOCK_PRICES = Some q ->
  (0 < q)%Q
  /\ (lit (F := float) q =? 0)%float = false
  /\ gt (lit (F := float) q) (lit 0) = true.
Proof.
  unfold MOCK_PRICES. simpl dict_get.
  repeat (destruct (String.eqb key _);
          [intros [= <-]; repeat split; vm_compute; reflexivity|]).
  discriminate.
Qed.

(** Prices are looked up by the upper-cased symbol: upper-casing a symbol
    first changes nothing, and neither does lower-casing a symbol made of
    ASCII characters; a symbol of the table has its (positive) price and
    any other symbol the price 0. *)
Theorem price_lookup (sym : string) :
  get_current_price (F := float) (PyStr.upper sym) = get_current_price sym
  /\ (is_ascii sym = true ->
      get_current_price (F := float) (PyStr.lower sym) = get_current_price sym)
  /\ (dict_get (PyStr.upper sym) MOCK_PRICES = None ->
      get_current_price (F := float) sym = 0%float)
  /\ (forall q, dict_get (PyStr.upper sym) MOCK_PRICES = Some q ->
                get_current_price (F := float) sym = lit q
                /\ gt (get_current_price (F := float) sym) (lit 0) = true).
Proof.
  unfold get_current_price. rewrite upper_idempotent.
  split; [reflexivity|]. split; [|split].
  - intros Hascii. now rewrite (upper_lower_ascii sym Hascii).
  - intros ->. vm_compute. reflexivity.
  - intros q H. rewrite H. split; [reflexivity|].
    now apply table_prices_positive in H.
Qed.

(** [get_crypto_price] never answers 404: for a symbol that is not in the
    table the 404 raised inside the [try] is caught by its own handler and
    becomes a 500; for a symbol of the table the answer carries the
    upper-cased symbol and its positive price. *)
Theorem price_endpoint_never_404 (now sym : string) :
  get_crypto_price now sym <> inl (HTTPException 404)
  /\ (dict_get (PyStr.upper sym) MOCK_PRICES = None ->
      get_crypto_price now sym = inl (HTTPException 500))
  /\ (forall q, dict_get (PyStr.upper sym) MOCK_PRICES = Some q ->
                get_crypto_price now sym
                = inr {| price_symbol := PyStr.upper sym;
                         price_usd := lit q;
                         last_updated := now |}).
Proof.
  unfold get_crypto_price, get_current_price.
  destruct (dict_get (PyStr.upper sym) MOCK_PRICES) as [q|] eqn:E.
  - apply table_prices_positive in E. destruct E as (_ & E & _).
    rewrite E. unfold try_except.
    split; [discriminate|]. split; [discriminate|].
    intros q' [= <-]. reflexivity.
  - change (lit (F := float) 0 =? 0)%float with true. unfold try_except.
    split; [discriminate|]. split; [reflexivity|].
    intros q' [=].
Qed.

(* ================================================================== *)
(** ** The crypto module: portfolio metrics *)

Section MetricsFacts.

Context {F : Type} {AF : Arith F}.

(** [calculate_portfolio_metrics] makes one entry per asset, in order, with
    the asset's symbol, quantity and purchase price, its price from the
    table and the values computed from them; the second loop changes
    nothing but the weight. *)
Theorem metrics_follow_assets (assets : list (PortfolioAsset F)) :
  let m := calculate_portfolio_metrics assets in
  List.length (portfolio_data m) = List.length assets
  /\ map a_symbol (portfolio_data m) = map symbol assets
  /\ map (set_weight (lit 0)) (portfolio_data m) = map asset_entry assets
  /\ total_invested m
     = fold_left add (map (fun a => mul (quantity a) (purchase_price a)) assets)
                 (lit 0)
  /\ total_current_value m
     = fold_left add
                 (map (fun a => mul (quantity a) (get_current_price (symbol a)))
                      assets)
                 (lit 0)
  /\ total_profit_loss m = sub (total_current_value m) (total_invested m).
Proof.
  unfold calculate_portfolio_metrics, first_loop.
  rewrite first_loop_from. simpl.
  repeat split.
  - now rewrite !length_map.
  - rewrite !map_map. reflexivity.
  - rewrite !map_map. reflexivity.
Qed.

End MetricsFacts.

(* ================================================================== *)
(** ** The crypto module: recommendations and the portfolio endpoint *)

Lemma messages_distinct (n : nat) :
  DIVERSIFY <> ADD_ASSETS /\ DIVERSIFY <> REBALANCE
  /\ DIVERSIFY <> WELL_BALANCED /\ DIVERSIFY <> review_message n
  /\ ADD_ASSETS <> REBALANCE /\ ADD_ASSETS <> WELL_BALANCED
  /\ ADD_ASSETS <> review_message n /\ REBALANCE <> WELL_BALANCED
  /\ REBALANCE <> review_message n /\ WELL_BALANCED <> review_message n.
Proof.
  unfold DIVERSIFY, ADD_ASSETS, REBALANCE, WELL_BALANCED, review_message.
  cbn [append]. repeat split; discriminate.
Qed.

Section RecommendationFacts.

Context {F : Type} {AF : Arith F}.

Lemma recommendations_facts (data : list (AssetData F)) (risk : Risk F) :
  (generate_recommendations data risk = inl (KeyError "max_position_weight")
   <-> extra risk = None)
  /\ (forall x recs,
         extra risk = Some x ->
         generate_recommendations data risk = inr recs ->
         1 <= List.length recs <= 4
         /\ (In DIVERSIFY recs <-> concentration_risk risk = "high")
         /\ (In ADD_ASSETS recs <-> List.length data < 5)
         /\ (In REBALANCE recs <-> gt (max_position_weight x) (lit 50) = true)
         /\ (In WELL_BALANCED recs <-> recs = [WELL_BALANCED])
         /\ (In WELL_BALANCED recs
             <-> concentration_risk risk <> "high"
                 /\ 5 <= List.length data
                 /\ underperformers data = []
                 /\ gt (max_position_weight x) (lit 50) = false)).
Proof.
  unfold generate_recommendations.
  destruct (extra risk) as [x|].
  - split; [split; discriminate|].
    intros x' recs [= <-] Hr.
    destruct (messages_distinct (List.length (underperformers data)))
      as (D1 & D2 & D3 & D4 & D5 & D6 & D7 & D8 & D9 & D10).
    destruct (String.eqb_spec (concentration_risk risk) "high") as [Hc|Hc];
      destruct (Nat.ltb_spec (List.length data) 5) as [Hn|Hn];
      destruct (underperformers data) as [|u us] eqn:Hu;
      destruct (gt (max_position_weight x) (lit 50)) eqn:Hm;
      cbn [List.length Nat.ltb Nat.leb app] in Hr;
      injection Hr as <-; cbn [List.length In];
      repeat split; try lia; try discriminate;
      intuition (try congruence; try lia; try discriminate).
  - split; [split; reflexivity|]. intros x recs [=].
Qed.

(** [generate_recommendations] fails, with a [KeyError], exactly on a risk
    record without [max_position_weight].  Otherwise it returns one to four
    messages: the call to diversify exactly when the concentration risk is
    "high", the call to add assets exactly for fewer than five assets, the
    call to rebalance exactly when the largest weight exceeds 50, and the
    "well-balanced" message exactly when nothing else is said. *)
Theorem recommendations_shape (data : list (AssetData F)) (risk : Risk F) :
  (generate_recommendations data risk = inl (KeyError "max_position_weight")
   <-> extra risk = None)
  /\ (forall x recs,
         extra risk = Some x ->
         generate_recommendations data risk = inr recs ->
         1 <= List.length recs <= 4
         /\ (In DIVERSIFY recs <-> concentration_risk risk = "high")
         /\ (In ADD_ASSETS recs <-> List.length data < 5)
         /\ (In REBALANCE recs <-> gt (max_position_weight x) (lit 50) = true)
         /\ (In WELL_BALANCED recs <-> recs = [WELL_BALANCED])
         /\ (In WELL_BALANCED recs
             <-> concentration_risk risk <> "high"
                 /\ 5 <= List.length data
                 /\ underperformers data = []
                 /\ gt (max_position_weight x) (lit 50) = false)).
Proof. apply recommendations_facts. Qed.

Lemma fold_pick_in (A : Type) (better : A -> A -> bool) (rest : list A) :
  forall x,
    In (fold_left (fun best item => if better item best then item else best)
                  rest x)
       (x :: rest).
Proof.
  induction rest as [|y rest IH]; intros x; simpl; [auto|].
  destruct (IH (if better y x then y else x)) as [H|H].
  - destruct (better y x); rewrite <- H; auto.
  - auto.
Qed.

Lemma max_by_in (A : Type) (key : A -> F) (items : list A) (best : A) :
  max_by key items = Some best -> In best items.
Proof.
  destruct items as [|x rest]; [discriminate|]. intros [= <-].
  apply (fold_pick_in (fun item best => gt (key item) (key best))).
Qed.

Lemma min_by_in (A : Type) (key : A -> F) (items : list A) (worst : A) :
  min_by key items = Some worst -> In worst items.
Proof.
  destruct items as [|x rest]; [discriminate|]. intros [= <-].
  apply (fold_pick_in (fun item best => gt (key best) (key item))).
Qed.

End RecommendationFacts.

Section EndpointFacts.

Context {F : Type} {AF : Arith F}.

(** The two library calls of [analyze_risk], whatever they return or
    raise. *)
Variable pow2 : F -> Exn + F.
Variable stdev : list F -> Exn + F.

(** What a record that [analyze_risk] returns looks like. *)
Lemma analyze_risk_returns (data : list (AssetData F)) (risk : Risk F) :
  analyze_risk pow2 stdev data = inr risk ->
  match data with
  | [] => risk_level risk = "unknown" /\ extra risk = None
  | _ :: _ => risk_level risk <> "unknown"
              /\ exists x, extra risk = Some x
  end.
Proof.
  destruct data as [|a data].
  - intros [= <-]. split; reflexivity.
  - unfold analyze_risk.
    destruct (sum_squares pow2 (map weight (a :: data))) as [e|hhi];
      [discriminate|].
    destruct (if Nat.ltb 1 _ then _ else _) as [e|vol]; [discriminate|].
    intros [= <-]. cbn [risk_level extra]. split; [|eauto].
    destruct (gt hhi _); [discriminate|]. destruct (gt hhi _); discriminate.
Qed.

(** [analyze_portfolio] fails on the empty portfolio: the risk record of
    no assets has no [max_position_weight], the [KeyError] reaches the
    handler and the answer is a 500.  An exception of [analyze_risk] - an
    overflowing square, a standard deviation that cannot be computed - is
    answered with a 500 as well, and no other status is ever raised.  A
    successful answer is therefore about at least one asset: it names a
    best and a worst performer among the entries, its risk record is the
    one [analyze_risk] returned, with a level other than "unknown", and it
    carries one to four recommendations. *)
Theorem portfolio_endpoint (assets : list (PortfolioAsset F)) :
  (assets = [] ->
   analyze_portfolio pow2 stdev assets = inl (HTTPException 500))
  /\ (forall e, analyze_portfolio pow2 stdev assets = inl e ->
                e = HTTPException 500)
  /\ (forall e,
         analyze_risk pow2 stdev
                      (portfolio_data (calculate_portfolio_metrics assets))
         = inl e ->
         analyze_portfolio pow2 stdev assets = inl (HTTPException 500))
  /\ (forall body,
         analyze_portfolio pow2 stdev assets = inr body ->
         assets <> []
         /\ portfolio_metrics body = calculate_portfolio_metrics assets
         /\ analyze_risk pow2 stdev (portfolio_data (portfolio_metrics body))
            = inr (risk_analysis body)
         /\ (exists best worst,
                best_performer body = Some best
                /\ worst_performer body = Some worst
                /\ In best (portfolio_data (portfolio_metrics body))
                /\ In worst (portfolio_data (portfolio_metrics body)))
         /\ risk_level (risk_analysis body) <> "unknown"
         /\ 1 <= List.length (recommendations body) <= 4).
Proof.
  split; [|split; [|split]].
  - intros ->. reflexivity.
  - unfold analyze_portfolio, try_except. intros e.
    destruct (analyze_risk _ _ _) as [e'|risk];
      [intros [= <-]; reflexivity|].
    destruct (generate_recommendations _ _); [intros [= <-]; reflexivity|].
    discriminate.
  - intros e He. unfold analyze_portfolio, try_except.
    now rewrite He.
  - intros body. unfold analyze_portfolio, try_except.
    set (m := calculate_portfolio_metrics assets).
    destruct (analyze_risk pow2 stdev (portfolio_data m)) as [e|risk] eqn:Hr;
      [discriminate|].
    destruct (generate_recommendations (portfolio_data m) risk)
      as [e|recs] eqn:Hg; [discriminate|].
    intros [= <-]. cbn [portfolio_metrics risk_analysis best_performer
                        worst_performer recommendations].
    destruct (recommendations_facts (portfolio_data m) risk) as [Hk Hs].
    pose proof (analyze_risk_returns _ Hr) as Hshape.
    destruct (portfolio_data m) as [|a data] eqn:Hd.
    { exfalso. destruct Hshape as [_ Hx].
      apply Hk in Hx. rewrite Hx in Hg. discriminate Hg. }
    destruct Hshape as [Hlevel [x Hx]].
    assert (Hne : assets <> []).
    { intros ->. discriminate Hd. }
    split; [exact Hne|]. split; [reflexivity|]. split; [exact Hr|].
    split.
    { destruct (max_by profit_loss_percentage (a :: data)) as [best|] eqn:Hb;
        [|discriminate Hb].
      destruct (min_by profit_loss_percentage (a :: data)) as [worst|] eqn:Hw;
        [|discriminate Hw].
      exists best, worst. repeat split.
      - exact (max_by_in _ _ Hb).
      - exact (min_by_in _ _ Hw). }
    split; [exact Hlevel|].
    exact (proj1 (Hs x recs Hx Hg)).
Qed.

End EndpointFacts.

(* ================================================================== *)
(** ** The order of floats *)

(** [<=] and [<] on binary64 floats, from their specification: away from
    NaN the order is reflexive and total, and it is transitive. *)

Ltac sign_cases :=
  repeat match goal with
         | s : bool |- _ => destruct s
         end;
  simpl in *; try discriminate; try reflexivity; try congruence.

Ltac compare_cases :=
  repeat match goal with
         | H : context [Z.compare ?a ?b] |- _ =>
             destruct (Z.compare_spec a b); try discriminate
         | |- context [Z.compare ?a ?b] =>
             destruct (Z.compare_spec a b); try discriminate
         | H : context [Pos.compare ?a ?b] |- _ =>
             destruct (Pos.compare_spec a b); simpl in H; try discriminate
         | |- context [Pos.compare ?a ?b] =>
             destruct (Pos.compare_spec a b); simpl; try discriminate
         end;
  try reflexivity; try lia.

Lemma SFleb_refl (x : spec_float) : x <> S754_nan -> SFleb x x = true.
Proof.
  unfold SFleb. destruct x as [s|s| |s m e]; try congruence; intros _;
    sign_cases; change (Pos.compare_cont Eq m m) with (Pos.compare m m);
    rewrite Z.compare_refl, Pos.compare_refl; reflexivity.
Qed.

Lemma SFltb_leb (x y : spec_float) : SFltb x y = true -> SFleb x y = true.
Proof.
  unfold SFltb, SFleb. destruct (SFcompare x y) as [[]|]; congruence.
Qed.

Lemma SFleb_total (x y : spec_float) :
  x <> S754_nan -> y <> S754_nan -> SFltb y x = false -> SFleb x y = true.
Proof.
  unfold SFltb, SFleb.
  destruct x as [s|s| |s m e], y as [s'|s'| |s' m' e']; try congruence;
    intros _ _; sign_cases;
    change (Pos.compare_cont Eq ?a ?b) with (Pos.compare a b) in *;
    compare_cases.
Qed.

Lemma SFleb_trans (x y z : spec_float) :
  SFleb x y = true -> SFleb y z = true -> SFleb x z = true.
Proof.
  unfold SFleb.
  destruct x as [s|s| |s m e], y as [s'|s'| |s' m' e'],
           z as [s''|s''| |s'' m'' e'']; sign_cases;
    change (Pos.compare_cont Eq ?a ?b) with (Pos.compare a b) in *;
    intros H1 H2; compare_cases.
Qed.

Lemma not_nan (x : float) : is_nan x = false -> Prim2SF x <> S754_nan.
Proof.
  unfold is_nan. rewrite eqb_spec. intros H E. rewrite E in H. discriminate.
Qed.

Lemma fleb_refl (x : float) : is_nan x = false -> (x <=? x)%float = true.
Proof. intros H. rewrite leb_spec. apply SFleb_refl, not_nan, H. Qed.

Lemma fltb_leb (x y : float) : (x <? y)%float = true -> (x <=? y)%float = true.
Proof. rewrite ltb_spec, leb_spec. apply SFltb_leb. Qed.

Lemma fleb_total (x y : float) :
  is_nan x = false -> is_nan y = false ->
  (y <? x)%float = false -> (x <=? y)%float = true.
Proof.
  intros Hx Hy. rewrite ltb_spec, leb_spec.
  apply SFleb_total; apply not_nan; assumption.
Qed.

Lemma fleb_trans (x y z : float) :
  (x <=? y)%float = true -> (y <=? z)%float = true -> (x <=? z)%float = true.
Proof. rewrite !leb_spec. apply SFleb_trans. Qed.

(* ================================================================== *)
(** ** The crypto module: portfolios without value *)

Lemma sum_squares_zeros (pow2 : float -> Exn + float) (n : nat) :
  pow2 0%float = inr 0%float ->
  sum_squares pow2 (repeat 0%float n) = inr 0%float.
Proof.
  intros H. unfold sum_squares. change (lit (F := float) 0) with 0%float.
  induction n as [|n IH]; [reflexivity|]. simpl. rewrite H.
  change (add 0 0)%float with 0%float. exact IH.
Qed.

(** On floats, a non-empty portfolio whose total current value is not
    positive - worthless, made of unknown symbols, or not a number - gets
    weight 0 for every position; the square of 0 being 0, the record
    [analyze_risk] returns for it, when the standard deviation does not
    raise, has the risk level "low", the concentration risk "low" and the
    diversification score 100. *)
Theorem worthless_portfolio_is_low_risk
        (pow2 : float -> Exn + float) (stdev : list float -> Exn + float)
        (assets : list (PortfolioAsset float)) :
  assets <> [] ->
  gt (total_current_value (calculate_portfolio_metrics assets)) (lit 0) = false ->
  pow2 0%float = inr 0%float ->
  Forall (fun a => weight a = 0%float)
         (portfolio_data (calculate_portfolio_metrics assets))
  /\ (forall r,
         analyze_risk pow2 stdev
                      (portfolio_data (calculate_portfolio_metrics assets))
         = inr r ->
         risk_level r = "low"
         /\ concentration_risk r = "low"
         /\ diversification_score r = 100%float).
Proof.
  intros Hne Hz Hp.
  destruct (portfolio_weights assets) as [HV Hw]. cbv zeta in HV, Hw.
  set (m := calculate_portfolio_metrics assets) in *.
  rewrite Hz in Hw.
  assert (Hrep : map weight (portfolio_data m)
                 = repeat 0%float (List.length assets)).
  { rewrite Hw. clear.
    induction assets as [|a assets IH]; [reflexivity|].
    cbn [map repeat List.length]. rewrite IH. reflexivity. }
  split.
  - apply Forall_forall. intros a Hin.
    apply (in_map weight) in Hin. rewrite Hrep in Hin.
    apply repeat_spec in Hin. exact Hin.
  - intros r. unfold analyze_risk.
    destruct (portfolio_data m) as [|a data] eqn:Hd.
    { destruct assets; [congruence|discriminate Hrep]. }
    rewrite Hrep, (sum_squares_zeros pow2 _ Hp).
    destruct (if Nat.ltb 1 _ then _ else _) as [e|vol]; [discriminate|].
    intros [= <-]. cbn [risk_level concentration_risk diversification_score].
    repeat split; vm_compute; reflexivity.
Qed.

Lemma worthless_portfolio_is_low_risk_witness :
  let pow2 := fun w : float => inr (w * w)%float in
  let stdev := fun _ : list float => inl StatisticsError in
  let assets : list (PortfolioAsset float) :=
    [ {| symbol := "DOGE"; quantity := 1000%float;
         purchase_price := 0.1%float; purchase_date := "2024-03-01" |} ] in
  analyze_risk pow2 stdev (portfolio_data (calculate_portfolio_metrics assets))
  <> inl StatisticsError
  /\ Forall (fun a => weight a = 0%float)
            (portfolio_data (calculate_portfolio_metrics assets))
  /\ (forall r,
         analyze_risk pow2 stdev
                      (portfolio_data (calculate_portfolio_metrics assets))
         = inr r ->
         risk_level r = "low"
         /\ concentration_risk r = "low"
         /\ diversification_score r = 100%float).
Proof.
  cbv zeta. split; [vm_compute; discriminate|].
  apply worthless_portfolio_is_low_risk.
  - discriminate.
  - vm_compute. reflexivity.
  - reflexivity.
Defined.

(* ================================================================== *)
(** ** The crypto module: best and worst performer *)

Lemma float_fold_max (A : Type) (key : A -> float) (rest : list A) :
  forall x,
    Forall (fun a => is_nan (key a) = false) (x :: rest) ->
    let best := fold_left (fun best item =>
                             if gt (key item) (key best) then item else best)
                          rest x in
    Forall (fun a => (key a <=? key best)%float = true) (x :: rest).
Proof.
  induction rest as [|y rest IH]; intros x Hnan; cbv zeta; cbn [fold_left].
  - inversion Hnan; subst. constructor; [now apply fleb_refl | constructor].
  - inversion Hnan as [|? ? Hx Hrest]; subst.
    inversion Hrest as [|? ? Hy Hrest']; subst.
    change (gt (key y) (key x)) with (key x <? key y)%float.
    destruct (key x <? key y)%float eqn:E.
    + specialize (IH y Hrest). cbv zeta in IH.
      inversion IH as [|? ? H1 H2]; subst.
      constructor; [|constructor; assumption].
      exact (fleb_trans (fltb_leb E) H1).
    + specialize (IH x (Forall_cons _ Hx Hrest')). cbv zeta in IH.
      inversion IH as [|? ? H1 H2]; subst.
      constructor; [assumption|constructor; [|assumption]].
      exact (fleb_trans (fleb_total Hy Hx E) H1).
Qed.

Lemma float_fold_min (A : Type) (key : A -> float) (rest : list A) :
  forall x,
    Forall (fun a => is_nan (key a) = false) (x :: rest) ->
    let worst := fold_left (fun best item =>
                              if gt (key best) (key item) then item else best)
                           rest x in
    Forall (fun a => (key worst <=? key a)%float = true) (x :: rest).
Proof.
  induction rest as [|y rest IH]; intros x Hnan; cbv zeta; cbn [fold_left].
  - inversion Hnan; subst. constructor; [now apply fleb_refl | constructor].
  - inversion Hnan as [|? ? Hx Hrest]; subst.
    inversion Hrest as [|? ? Hy Hrest']; subst.
    change (gt (key x) (key y)) with (key y <? key x)%float.
    destruct (key y <? key x)%float eqn:E.
    + specialize (IH y Hrest). cbv zeta in IH.
      inversion IH as [|? ? H1 H2]; subst.
      constructor; [|constructor; assumption].
      exact (fleb_trans H1 (fltb_leb E)).
    + specialize (IH x (Forall_cons _ Hx Hrest')). cbv zeta in IH.
      inversion IH as [|? ? H1 H2]; subst.
      constructor; [assumption|constructor; [|assumption]].
      exact (fleb_trans H1 (fleb_total Hx Hy E)).
Qed.

(** On floats, when no profit-and-loss percentage of the portfolio is a
    NaN, the best performer of a successful answer has the highest
    percentage of the portfolio and the worst performer the lowest. *)
Theorem best_and_worst_performers
        (pow2 : float -> Exn + float) (stdev : list float -> Exn + float)
        (assets : list (PortfolioAsset float))
        (body : PortfolioAnalytics float) (best worst : AssetData float) :
  analyze_portfolio pow2 stdev assets = inr body ->
  best_performer body = Some best ->
  worst_performer body = Some worst ->
  Forall (fun a => is_nan (profit_loss_percentage a) = false)
         (portfolio_data (portfolio_metrics body)) ->
  Forall (fun a =>
            (profit_loss_percentage worst <=? profit_loss_percentage a)%float
            = true
            /\ (profit_loss_percentage a <=? profit_loss_percentage best)%float
               = true)
         (portfolio_data (portfolio_metrics body)).
Proof.
  unfold analyze_portfolio, try_except.
  set (m := calculate_portfolio_metrics assets).
  destruct (analyze_risk pow2 stdev (portfolio_data m)) as [e|risk];
    [discriminate|].
  destruct (generate_recommendations _ _) as [e|recs]; [discriminate|].
  intros [= <-]. cbn [best_performer worst_performer portfolio_metrics].
  destruct (portfolio_data m) as [|x rest]; [discriminate|].
  unfold max_by, min_by. intros [= <-] [= <-] Hnan.
  pose proof (float_fold_max profit_loss_percentage Hnan) as Hmax.
  pose proof (float_fold_min profit_loss_percentage Hnan) as Hmin.
  cbv zeta in Hmax, Hmin.
  rewrite Forall_forall in *. intros a Hin. split; auto.
Qed.

Lemma best_and_worst_performers_witness :
  exists body best worst,
    analyze_portfolio
      (fun w : float => inr (w * w)%float)
      (fun _ : list float => inr 0%float)
      [ {| symbol := "BTC"; quantity := 0.5%float;
           purchase_price := 30000%float; purchase_date := "2024-01-01" |};
        {| symbol := "eth"; quantity := 3%float;
           purchase_price := 4000%float; purchase_date := "2024-02-01" |} ]
    = inr body
    /\ best_performer body = Some best
    /\ worst_performer body = Some worst
    /\ a_symbol best = "BTC" /\ a_symbol worst = "eth"
    /\ Forall (fun a =>
                 (profit_loss_percentage worst <=? profit_loss_percentage a)%float
                 = true
                 /\ (profit_loss_percentage a <=? profit_loss_percentage best)%float
                    = true)
              (portfolio_data (portfolio_metrics body)).
Proof.
  eexists. eexists. eexists.
  split; [vm_compute; reflexivity|].
  split; [reflexivity|]. split; [reflexivity|].
  split; [reflexivity|]. split; [reflexivity|].
  apply (@best_and_worst_performers
           (fun w : float => inr (w * w)%float)
           (fun _ : list float => inr 0%float)
           [ {| symbol := "BTC"; quantity := 0.5%float;
                purchase_price := 30000%float; purchase_date := "2024-01-01" |};
             {| symbol := "eth"; quantity := 3%float;
                purchase_price := 4000%float; purchase_date := "2024-02-01" |} ]);
    [vm_compute; reflexivity | reflexivity | reflexivity | repeat constructor].
Defined.

(* ================================================================== *)
(** ** The sentiment module: keywords *)

Lemma dict_set_keys (V : Type) (k : string) (v : V) (d : dict V) :
  map fst (dict_set k v d)
  = if existsb (String.eqb k) (map fst d) then map fst d
    else (map fst d ++ [k])%list.
Proof.
  induction d as [|[k0 v0] d IH]; simpl; [reflexivity|].
  destruct (String.eqb k k0) eqn:E; simpl; [reflexivity|].
  rewrite IH. destruct (existsb (String.eqb k) (map fst d)); reflexivity.
Qed.

Lemma dict_set_keys_nodup (V : Type) (k : string) (v : V) (d : dict V) :
  NoDup (map fst d) -> NoDup (map fst (dict_set k v d)).
Proof.
  intros H. rewrite dict_set_keys.
  destruct (existsb (String.eqb k) (map fst d)) eqn:E; [exact H|].
  apply NoDup_app; [exact H | repeat constructor; intros [] |].
  intros x Hx [<-|[]].
  assert (existsb (String.eqb k) (map fst d) = true); [|congruence].
  apply existsb_exists. exists k. split; [exact Hx | apply String.eqb_refl].
Qed.

Lemma dict_set_in (V : Type) (k : string) (v : V) (d : dict V) (e : string * V) :
  In e (dict_set k v d) -> e = (k, v) \/ In e d.
Proof.
  induction d as [|[k0 v0] d IH]; simpl.
  - intros [<-|[]]. now left.
  - destruct (String.eqb k k0) eqn:E; simpl.
    + apply String.eqb_eq in E. subst. intros [<-|H]; auto.
    + intros [<-|H]; auto. destruct (IH H); auto.
Qed.

Lemma dict_set_key_in (V : Type) (k : string) (v : V) (d : dict V) :
  In k (map fst (dict_set k v d))
  /\ forall k', In k' (map fst d) -> In k' (map fst (dict_set k v d)).
Proof.
  rewrite dict_set_keys.
  destruct (existsb (String.eqb k) (map fst d)) eqn:E.
  - split; [|auto]. apply existsb_exists in E. destruct E as (x & Hx & Ex).
    apply String.eqb_eq in Ex. now subst.
  - split; [apply in_or_app; right; now left|].
    intros k' H. apply in_or_app. now left.
Qed.

Lemma dict_get_key_in (V : Type) (k : string) (v : V) (d : dict V) :
  dict_get k d = Some v -> In k (map fst d).
Proof.
  induction d as [|[k0 v0] d IH]; simpl; [discriminate|].
  destruct (String.eqb k k0) eqn:E; [|auto].
  apply String.eqb_eq in E. auto.
Qed.

Lemma unique_step_filed (seen : list Keyword) (d : dict Keyword) (kw : Keyword) :
  filed seen d -> filed (seen ++ [kw]) (unique_step d kw).
Proof.
  intros (Hnd & He & Hs). unfold unique_step. fold (kw_key kw).
  assert (Hset : filed (seen ++ [kw]) (dict_set (kw_key kw) kw d)).
  { split; [now apply dict_set_keys_nodup|]. split.
    - intros e Hin. apply dict_set_in in Hin. destruct Hin as [->|Hin].
      + simpl. split; [reflexivity|]. apply in_or_app. right. now left.
      + destruct (He e Hin). split; [assumption|]. apply in_or_app. now left.
    - intros kw' Hin. apply in_app_or in Hin.
      destruct (dict_set_key_in (kw_key kw) kw d) as [H1 H2].
      destruct Hin as [Hin|[<-|[]]]; auto. }
  destruct (dict_get (kw_key kw) d) as [old|] eqn:Hg; [|exact Hset].
  destruct (fgt (importance kw) (importance old)); [exact Hset|].
  split; [exact Hnd|]. split.
  - intros e Hin. destruct (He e Hin). split; [assumption|].
    apply in_or_app. now left.
  - intros kw' Hin. apply in_app_or in Hin.
    destruct Hin as [Hin|[<-|[]]]; auto.
    now apply dict_get_key_in in Hg.
Qed.

Lemma unique_fold_filed (kws : list Keyword) :
  forall seen d, filed seen d ->
                 filed (seen ++ kws) (fold_left unique_step kws d).
Proof.
  induction kws as [|kw kws IH]; intros seen d H; simpl.
  - now rewrite app_nil_r.
  - replace (seen ++ kw :: kws)%list with ((seen ++ [kw]) ++ kws)%list
      by (rewrite <- app_assoc; reflexivity).
    apply IH. now apply unique_step_filed.
Qed.

Lemma insert_by_importance_perm (kw : Keyword) (l : list Keyword) :
  Permutation (insert_by_importance kw l) (kw :: l).
Proof.
  induction l as [|k l IH]; simpl; [reflexivity|].
  destruct (importance k <? importance kw)%float; [reflexivity|].
  rewrite IH. apply perm_swap.
Qed.

Lemma sorted_by_importance_perm (items : list Keyword) :
  Permutation (sorted_by_importance items) items.
Proof.
  unfold sorted_by_importance.
  assert (H : forall acc,
             Permutation
               (fold_left (fun sorted kw => insert_by_importance kw sorted)
                          items acc)
               (acc ++ items)).
  { induction items as [|kw items IH]; intros acc; simpl.
    - now rewrite app_nil_r.
    - rewrite IH, insert_by_importance_perm. simpl.
      apply Permutation_middle. }
  apply (H []).
Qed.

Lemma in_firstn (A : Type) (n : nat) (l : list A) (x : A) :
  In x (firstn n l) -> In x l.
Proof.
  intros H. rewrite <- (firstn_skipn n l). apply in_or_app. now left.
Qed.

Lemma phrase_keywords_candidates (noun_phrases : list string) :
  forall acc kw,
    In kw (fold_left
             (fun keywords phrase =>
                if Nat.ltb 2 (String.length phrase)
                then (keywords
                      ++ [ {| kw_text := phrase; kw_type := "noun_phrase";
                              importance :=
                                (float_of_nat (List.length (split_words phrase))
                                 * 0.5)%float |} ])%list
                else keywords)
             noun_phrases acc) ->
    In kw acc
    \/ (2 < String.length (kw_text kw) /\ kw_type kw = "noun_phrase"
        /\ In (kw_text kw) noun_phrases).
Proof.
  induction noun_phrases as [|p ps IH]; intros acc kw; simpl; [auto|].
  intros H. apply IH in H. destruct H as [H|(H1 & H2 & H3)]; [|auto 6].
  destruct (Nat.ltb_spec 2 (String.length p)); [|auto].
  apply in_app_or in H. destruct H as [H|[<-|[]]]; [auto|].
  right. simpl. auto.
Qed.

Lemma word_keywords_candidates (tags : list (string * string)) :
  forall acc kw,
    In kw (word_keywords acc tags) ->
    In kw acc
    \/ (2 < String.length (kw_text kw)
        /\ In (kw_text kw, kw_type kw) tags /\ content_tag (kw_type kw) = true).
Proof.
  unfold word_keywords.
  induction tags as [|[w t] tags IH]; intros acc kw; simpl; [auto|].
  intros H. apply IH in H. destruct H as [H|(H1 & H2 & H3)]; [|auto 6].
  destruct (content_tag t) eqn:Et; simpl in H; [|auto].
  destruct (Nat.ltb_spec 2 (String.length w)); [|auto].
  apply in_app_or in H. destruct H as [H|[<-|[]]]; [auto|].
  right. simpl. auto.
Qed.

(** [extract_keywords] returns at most ten keywords, no two with the same
    text up to case, each a candidate: a noun phrase, or a word tagged as
    noun, adjective or verb, longer than two characters.  When the
    candidates have at most ten texts up to case, each of them is
    represented in the result. *)
Theorem keywords_are_unique_candidates (noun_phrases : list string)
        (tags : list (string * string)) :
  let candidates := word_keywords (phrase_keywords noun_phrases) tags in
  let result := extract_keywords noun_phrases tags in
  List.length result <= 10
  /\ NoDup (map kw_key result)
  /\ Forall (candidate noun_phrases tags) result
  /\ Forall (fun kw => In kw candidates) result
  /\ (List.length (fold_left unique_step candidates []) <= 10 ->
      Forall (fun kw => In (kw_key kw) (map kw_key result)) candidates).
Proof.
  cbv zeta. unfold extract_keywords.
  set (cands := word_keywords (phrase_keywords noun_phrases) tags).
  set (d := fold_left unique_step cands []).
  assert (Hf : filed cands d).
  { apply (unique_fold_filed cands (seen := []) (d := [])).
    repeat split; simpl; try constructor; contradiction. }
  destruct Hf as (Hnd & He & Hs).
  assert (Hkeys : map kw_key (map snd d) = map fst d).
  { rewrite map_map. apply map_ext_in. intros e Hin.
    symmetry. apply (He e Hin). }
  pose proof (sorted_by_importance_perm (map snd d)) as Hperm.
  set (sorted := sorted_by_importance (map snd d)) in *.
  assert (Hin : forall kw, In kw (firstn 10 sorted) -> In kw cands).
  { intros kw H. apply in_firstn in H.
    apply (Permutation_in _ Hperm) in H.
    apply in_map_iff in H. destruct H as (e & <- & H). apply (He e H). }
  split; [apply firstn_le_length|]. split; [|split; [|split]].
  - rewrite <- firstn_map.
    assert (Hn : NoDup (map kw_key sorted)).
    { apply (Permutation_NoDup (l := map kw_key (map snd d))).
      - apply Permutation_map. symmetry. exact Hperm.
      - rewrite Hkeys. exact Hnd. }
    rewrite <- (firstn_skipn 10 (map kw_key sorted)) in Hn.
    now apply NoDup_app_remove_r in Hn.
  - apply Forall_forall. intros kw H. apply Hin in H. unfold cands in H.
    apply word_keywords_candidates in H. unfold candidate.
    destruct H as [H|(H1 & H2 & H3)]; [|auto].
    unfold phrase_keywords in H. apply phrase_keywords_candidates in H.
    destruct H as [[]|(H1 & H2 & H3)]. auto.
  - apply Forall_forall. exact Hin.
  - intros Hlen. apply Forall_forall. intros kw H.
    rewrite firstn_all2.
    + apply (Permutation_in (l := map kw_key (map snd d))).
      * apply Permutation_map. symmetry. exact Hperm.
      * rewrite Hkeys. now apply Hs.
    + rewrite (Permutation_length Hperm), length_map.
      exact Hlen.
Qed.
